(** * AS7331 UV sensor data logger (ESP32-C6): a shallow embedding of
      [uv_readings.ino] and the properties of its acquire / encode /
      transmit cycle.

    The sketch talks to three collaborators -- the serial console, the
    AS7331 driver and the WiFi / HTTP stack -- and to the millisecond
    clock.  Each sketch function is embedded as a computation in a small
    state monad over a [World]; the collaborators' answers come from an
    [Env] of oracles, and a computation also yields, in order, the
    calls it made on the collaborators. *)

From Stdlib Require Import ZArith List String Ascii Bool Lia.
From Stdlib Require Import Floats.SpecFloat.
From Stdlib Require Import Numbers.DecimalString Numbers.DecimalN.
Import ListNotations.

Local Open Scope string_scope.
Local Open Scope Z_scope.

(* ================================================================== *)
(** ** Text *)

(** The double-quote character (code 34), escaped in the sketch's literals. *)
Definition dquote : ascii := ascii_of_nat 34.

(** [quoted s] is [s] between two double quotes. *)
Definition quoted (s : string) : string :=
  String dquote (s ++ String dquote EmptyString).

Definition is_digit (c : ascii) : bool :=
  let n := nat_of_ascii c in (48 <=? n)%nat && (n <=? 57)%nat.

Fixpoint all_chars (p : ascii -> bool) (s : string) : bool :=
  match s with
  | EmptyString => true
  | String c r => p c && all_chars p r
  end.

(** [String(unsigned long)] and [Print::print(long)]: plain decimal. *)
Definition String_ulong (n : Z) : string :=
  NilZero.string_of_uint (N.to_uint (Z.to_N n)).

Definition String_int (n : Z) : string :=
  NilZero.string_of_int (Z.to_int n).

(* ================================================================== *)
(** ** Floating-point samples and their text form *)

(** The sensor driver hands out IEEE-754 values; they are kept as the
    standard library's [spec_float] (sign, mantissa, exponent). *)
Definition float : Type := spec_float.

(** The C comparison [x == 0]: true of both zeros, false of NaN. *)
Definition float_is_zero (x : float) : bool := SFeqb x (S754_zero false).


Definition pow10 (d : nat) : Z := 10 ^ Z.of_nat d.

(** [scaled_round m e d] is [m * 2^e * 10^d] rounded to the nearest
    integer, halves going up. *)
Definition scaled_round (m : positive) (e : Z) (d : nat) : Z :=
  let n := Zpos m * pow10 d in
  if 0 <=? e then n * 2 ^ e
  else (2 * n + 2 ^ (- e)) / 2 ^ (1 - e).

Definition digit_char (k : Z) : ascii := ascii_of_nat (48 + Z.to_nat k).

(** The [d] low decimal digits of [r], zero padded on the left. *)
Fixpoint frac_digits (d : nat) (r : Z) : string :=
  match d with
  | O => EmptyString
  | S d' => frac_digits d' (r / 10) ++ String (digit_char (r mod 10)) EmptyString
  end.

Definition fixed_point (q : Z) (d : nat) : string :=
  String_ulong (q / pow10 d) ++
  match d with
  | O => EmptyString
  | S _ => String "." (frac_digits d (q mod pow10 d))
  end.

(** Modelled from the spec: the Arduino core's [String(float, decimalPlaces)]
    (and [Print::print(float, digits)]), which the sketch calls and whose
    source is not part of the repository.  The spec describes its result as
    the value rounded to the requested number of decimal places
    ([<float, 2 decimals>]); NaN and infinities are out of scope there and
    are passed through by name. *)
Definition String_float (x : float) (decimalPlaces : nat) : string :=
  match x with
  | S754_nan => "nan"
  | S754_infinity s => (if s then "-inf" else "inf")
  | S754_zero _ => fixed_point 0 decimalPlaces
  | S754_finite s m e =>
      (if s then "-" else "") ++ fixed_point (scaled_round m e decimalPlaces) decimalPlaces
  end.



(* ================================================================== *)
(** ** JSON text, as the receiving end reads it *)

(** The members of a flat JSON object, from just after the opening brace:
    the text is cut at every comma and ends at the closing brace. *)
Fixpoint members (s : string) : list string :=
  match s with
  | EmptyString => [EmptyString]
  | String c r =>
      if Ascii.eqb c "}" then [EmptyString]
      else if Ascii.eqb c "," then EmptyString :: members r
      else match members r with
           | [] => [String c EmptyString]
           | f :: fs => String c f :: fs
           end
  end.

(** A member is cut at its first colon into key and value. *)
Fixpoint key_value (s : string) : string * string :=
  match s with
  | EmptyString => (EmptyString, EmptyString)
  | String c r =>
      if Ascii.eqb c ":" then (EmptyString, r)
      else let (k, v) := key_value r in (String c k, v)
  end.

Definition json_object (s : string) : list (string * string) :=
  match s with
  | String c r => if Ascii.eqb c "{" then map key_value (members r) else []
  | EmptyString => []
  end.

(** Characters that end a member or a key. *)
Definition is_separator (c : ascii) : bool :=
  Ascii.eqb c "," || Ascii.eqb c "}" || Ascii.eqb c ":".

Definition is_scalar_char (c : ascii) : bool := negb (is_separator c).

(* ================================================================== *)
(** ** Collaborators, world and events *)

(** The four values the driver keeps after [readAll]. *)
Record Readings : Type := mkReadings {
  reg_uva : float;
  reg_uvb : float;
  reg_uvc : float;
  reg_temp : float
}.

(** Every call the sketch makes on a collaborator. *)
Inductive Event : Type :=
| SerialBegin (baud : Z)
| SerialPrint (s : string)
| SerialPrintln (s : string)
| Delay (ms : Z)
| WireBegin (sda scl : Z)
| SensorBegin
| SensorGetGainValue
| SensorGetConversionTimeMillis
| SensorPrepareMeasurement (mode : Z) (startMeasure : bool)
| SensorReadAll
| WiFiBegin (ssid password : string)
| WiFiStatus
| WiFiLocalIP
| HttpBegin (url : string)
| HttpAddHeader (name value : string)
| HttpPOST (body : string)
| HttpGetString
| HttpErrorToString (code : Z)
| HttpEnd.

Definition is_post (e : Event) : bool :=
  match e with HttpPOST _ => true | _ => false end.

Definition is_network (e : Event) : bool :=
  match e with
  | WiFiBegin _ _ | WiFiStatus | WiFiLocalIP
  | HttpBegin _ | HttpAddHeader _ _ | HttpPOST _ | HttpGetString
  | HttpErrorToString _ | HttpEnd => true
  | _ => false
  end.

Definition is_wifi_begin (e : Event) : bool :=
  match e with WiFiBegin _ _ => true | _ => false end.

Definition is_read (e : Event) : bool :=
  match e with SensorReadAll => true | _ => false end.

Definition is_delay (ms : Z) (e : Event) : bool :=
  match e with Delay d => d =? ms | _ => false end.

Definition count (p : Event -> bool) (l : list Event) : nat :=
  List.length (filter p l).

(** What the collaborators answer.  The library constants the sketch
    compares against ([WL_CONNECTED], [ksfTkErrOk], [MEAS_MODE_CONT]) come
    from headers outside the repository and are left open.  The [k]-th call
    of [readAll], [WiFi.status] and [http.POST] gets the [k]-th answer, so
    any behaviour of sensor and network over time is an [Env]; [latency k]
    is the time the [k]-th collaborator call takes. *)
Record Env : Type := mkEnv {
  WL_CONNECTED : Z;
  ksfTkErrOk : Z;
  MEAS_MODE_CONT : Z;
  begin_result : bool;
  gain_value : Z;
  conversion_time : Z;
  prepare_result : bool;
  readAll_result : nat -> Z * Readings;
  status_result : nat -> Z;
  local_ip : string;
  POST_result : nat -> string -> Z;
  getString_result : nat -> string;
  errorToString_result : Z -> string;
  latency : nat -> N
}.

(** The mutable state: the clock (milliseconds since boot, unbounded),
    the sketch's global [lastPostTime], the driver's registers, and how
    many answers of each oracle are used up. *)
Record World : Type := mkWorld {
  clock : Z;
  lastPostTime : Z;
  regs : Readings;
  ops : nat;
  reads : nat;
  polls : nat;
  posts : nat
}.

Definition set_clock (t : Z) (w : World) : World :=
  mkWorld t (lastPostTime w) (regs w) (ops w) (reads w) (polls w) (posts w).
Definition set_lastPostTime (t : Z) (w : World) : World :=
  mkWorld (clock w) t (regs w) (ops w) (reads w) (polls w) (posts w).
Definition set_regs (r : Readings) (w : World) : World :=
  mkWorld (clock w) (lastPostTime w) r (ops w) (reads w) (polls w) (posts w).
Definition set_ops (n : nat) (w : World) : World :=
  mkWorld (clock w) (lastPostTime w) (regs w) n (reads w) (polls w) (posts w).
Definition set_reads (n : nat) (w : World) : World :=
  mkWorld (clock w) (lastPostTime w) (regs w) (ops w) n (polls w) (posts w).
Definition set_polls (n : nat) (w : World) : World :=
  mkWorld (clock w) (lastPostTime w) (regs w) (ops w) (reads w) n (posts w).
Definition set_posts (n : nat) (w : World) : World :=
  mkWorld (clock w) (lastPostTime w) (regs w) (ops w) (reads w) (polls w) n.

(** [unsigned long] is 32 bits wide on the ESP32-C6. *)
Definition ULONG_MODULUS : Z := 2 ^ 32.

(** Unsigned subtraction, as in [millis() - lastPostTime]. *)
Definition usub (a b : Z) : Z := (a - b) mod ULONG_MODULUS.

(* ================================================================== *)
(** ** The monad of sketch code *)

(** A call either returns, or control is caught for good in one of the
    sketch's [while (1) { delay(1000); }] loops. *)
Inductive outcome (A : Type) : Type :=
| Returned (a : A)
| Halted.
Arguments Returned {A} a.
Arguments Halted {A}.

(** Running a computation gives its outcome, the world it leaves and
    the collaborator calls it made, oldest first. *)
Record Result (A : Type) : Type := mkResult {
  value : outcome A;
  final : World;
  events : list Event
}.
Arguments mkResult {A} _ _ _.
Arguments value {A} _.
Arguments final {A} _.
Arguments events {A} _.

Definition M (A : Type) : Type := World -> Result A.

Definition ret {A : Type} (a : A) : M A := fun w => mkResult (Returned a) w [].

(** [prepend l r] is [r] with the earlier calls [l] put in front of its own. *)
Definition prepend {A : Type} (l : list Event) (r : Result A) : Result A :=
  mkResult (value r) (final r) (l ++ events r).

Definition bind {A B : Type} (m : M A) (k : A -> M B) : M B :=
  fun w =>
    let r := m w in
    match value r with
    | Returned a => prepend (events r) (k a (final r))
    | Halted => mkResult Halted (final r) (events r)
    end.

Notation "x <- m ;; k" := (bind m (fun x => k))
  (at level 61, m at next level, right associativity).
Notation "m ;; k" := (bind m (fun _ => k))
  (at level 61, right associativity).

(** [while (1) { delay(1000); }]: the call never returns; the delays
    themselves are performed by [step] below. *)
Definition halt_forever {A : Type} : M A := fun w => mkResult Halted w [].

Definition get_lastPostTime : M Z := fun w => mkResult (Returned (lastPostTime w)) w [].
Definition put_lastPostTime (t : Z) : M unit :=
  fun w => mkResult (Returned tt) (set_lastPostTime t w) [].

(** [millis()]: the clock, as an [unsigned long]. *)
Definition millis : M Z := fun w => mkResult (Returned (clock w mod ULONG_MODULUS)) w [].

(** [delay(ms)] lets exactly [ms] milliseconds pass. *)
Definition delay (ms : Z) : M unit :=
  fun w => mkResult (Returned tt) (set_clock (clock w + ms) w) [Delay ms].

Definition nl : string := String (ascii_of_nat 10) EmptyString.
(* ================================================================== *)
(** ** The sketch *)

(** Configuration constants of the sketch. *)
Definition ssid : string := "SomeWifiNetwork".
Definition password : string := "ILikeTurkeyBaconSwiss".
Definition serverUrl : string :=
  "https://app.monitman.com/dashboard/receive.php?sensor=uv".
Definition SDA_PIN : Z := 6.
Definition SCL_PIN : Z := 7.
Definition POST_INTERVAL : Z := 60000.

Section Sketch.

Context (env : Env).

(** A collaborator call: it is recorded, and takes the time the
    environment says it takes. *)
Definition elapse (w : World) : World :=
  set_ops (S (ops w)) (set_clock (clock w + Z.of_N (latency env (ops w))) w).

Definition call (e : Event) : M unit :=
  fun w => mkResult (Returned tt) (elapse w) [e].

Definition Serial_begin (baud : Z) : M unit := call (SerialBegin baud).
Definition Serial_print (s : string) : M unit := call (SerialPrint s).
Definition Serial_println (s : string) : M unit := call (SerialPrintln s).
Definition Wire_begin (sda scl : Z) : M unit := call (WireBegin sda scl).

Definition uvSensor_begin : M bool :=
  call SensorBegin;; ret (begin_result env).
Definition uvSensor_getGainValue : M Z :=
  call SensorGetGainValue;; ret (gain_value env).
Definition uvSensor_getConversionTimeMillis : M Z :=
  call SensorGetConversionTimeMillis;; ret (conversion_time env).
Definition uvSensor_prepareMeasurement (mode : Z) (startMeasure : bool) : M bool :=
  call (SensorPrepareMeasurement mode startMeasure);; ret (prepare_result env).

(** [readAll] returns the driver's error code and leaves the new values
    in the driver's registers, where the getters find them. *)
Definition uvSensor_readAll : M Z :=
  fun w =>
    let r := readAll_result env (reads w) in
    (call SensorReadAll;; ret (fst r)) (set_regs (snd r) (set_reads (S (reads w)) w)).
Definition uvSensor_getUVA : M float :=
  fun w => mkResult (Returned (reg_uva (regs w))) w [].
Definition uvSensor_getUVB : M float :=
  fun w => mkResult (Returned (reg_uvb (regs w))) w [].
Definition uvSensor_getUVC : M float :=
  fun w => mkResult (Returned (reg_uvc (regs w))) w [].
Definition uvSensor_getTemp : M float :=
  fun w => mkResult (Returned (reg_temp (regs w))) w [].

Definition WiFi_begin (s p : string) : M unit := call (WiFiBegin s p).
Definition WiFi_status : M Z :=
  fun w =>
    (call WiFiStatus;; ret (status_result env (polls w))) (set_polls (S (polls w)) w).
Definition WiFi_localIP : M string := call WiFiLocalIP;; ret (local_ip env).

Definition http_begin (url : string) : M unit := call (HttpBegin url).
Definition http_addHeader (name value : string) : M unit :=
  call (HttpAddHeader name value).
Definition http_POST (body : string) : M Z :=
  fun w =>
    (call (HttpPOST body);; ret (POST_result env (posts w) body))
      (set_posts (S (posts w)) w).
Definition http_getString : M string :=
  fun w => (call HttpGetString;; ret (getString_result env (posts w))) w.
Definition http_errorToString (code : Z) : M string :=
  call (HttpErrorToString code);; ret (errorToString_result env code).
Definition http_end : M unit := call HttpEnd.

(** [configureSensor()] *)
Definition configureSensor : M unit :=
  Serial_println "Configuring AS7331 sensor...";;
  Serial_print "Current Gain: ";;
  g <- uvSensor_getGainValue;;
  Serial_println (String_int g);;
  Serial_print "Current Conversion Time (ms): ";;
  c <- uvSensor_getConversionTimeMillis;;
  Serial_println (String_int c);;
  ok <- uvSensor_prepareMeasurement (MEAS_MODE_CONT env) true;;
  (if Bool.eqb ok false then
     Serial_println "ERROR: Failed to start continuous measurement mode";;
     halt_forever
   else ret tt);;
  Serial_println "Sensor configured and measurement started in CONT mode";;
  Serial_println "Waiting for first conversion to complete...";;
  delay 1000;;
  Serial_println (nl ++ "Sensor is now running. Shine UV light on it!").

(** The [while] loop of [connectWiFi()], with [budget = 30 - attempts]:
    the status is polled first, and only while it is not connected is
    [attempts < 30] looked at. *)
Fixpoint await_connection (budget : nat) : M unit :=
  st <- WiFi_status;;
  if negb (st =? WL_CONNECTED env) then
    match budget with
    | O => ret tt
    | S budget' =>
        delay 500;;
        Serial_print ".";;
        await_connection budget'
    end
  else ret tt.

(** [connectWiFi()] *)
Definition connectWiFi : M unit :=
  Serial_print "Connecting to WiFi";;
  WiFi_begin ssid password;;
  await_connection 30;;
  st <- WiFi_status;;
  if st =? WL_CONNECTED env then
    Serial_println (nl ++ "WiFi connected!");;
    Serial_print "IP Address: ";;
    ip <- WiFi_localIP;;
    Serial_println ip
  else
    Serial_println (nl ++ "WiFi connection failed!").

(** [createJsonPayload(uva, uvb, uvc, temp)] *)
Definition createJsonPayload (uva uvb uvc temp : float) : M string :=
  let json := "{" in
  now <- millis;;
  let json := json ++ (quoted "timestamp" ++ ":" ++ String_ulong now ++ ",") in
  let json := json ++ (quoted "uva" ++ ":" ++ String_float uva 2 ++ ",") in
  let json := json ++ (quoted "uvb" ++ ":" ++ String_float uvb 2 ++ ",") in
  let json := json ++ (quoted "uvc" ++ ":" ++ String_float uvc 2 ++ ",") in
  let json := json ++ (quoted "temperature" ++ ":" ++ String_float temp 2 ++ ",") in
  let json := json ++ (quoted "device" ++ ":" ++ quoted "ESP32-C6" ++ ",") in
  let json := json ++ (quoted "sensor" ++ ":" ++ quoted "AS7331") in
  let json := json ++ "}" in
  ret json.

(** [sendDataToServer(jsonPayload)] *)
Definition sendDataToServer (jsonPayload : string) : M unit :=
  Serial_print "Posting to: ";;
  Serial_println serverUrl;;
  http_begin serverUrl;;
  http_addHeader "Content-Type" "application/json";;
  httpResponseCode <- http_POST jsonPayload;;
  (if 0 <? httpResponseCode then
     Serial_print "HTTP Response code: ";;
     Serial_println (String_int httpResponseCode);;
     response <- http_getString;;
     Serial_print "Server response: ";;
     Serial_println response
   else
     Serial_print "HTTP POST failed. Error: ";;
     e <- http_errorToString httpResponseCode;;
     Serial_println e);;
  http_end.

(** The warning lines of [readAndPostData()]. *)
Definition zero_warning : M unit :=
  Serial_println "WARNING: All UV values are zero!";;
  Serial_println "Try: 1) Shining UV light directly on sensor";;
  Serial_println "     2) Checking if UV light emits in 220-400nm range";;
  Serial_println "     3) Removing any protective covering on sensor".

(** [readAndPostData()] *)
Definition readAndPostData : M unit :=
  Serial_println "--- Reading UV Sensor Data ---";;
  Serial_println "Reading from sensor...";;
  result <- uvSensor_readAll;;
  if negb (result =? ksfTkErrOk env) then
    Serial_print "ERROR: Failed to read sensor data. Error code: ";;
    Serial_println (String_int result);;
    Serial_println ""
  else
    Serial_println "Read successful!";;
    uvaData <- uvSensor_getUVA;;
    uvbData <- uvSensor_getUVB;;
    uvcData <- uvSensor_getUVC;;
    tempData <- uvSensor_getTemp;;
    Serial_print "UVA: ";; Serial_print (String_float uvaData 4);;
    Serial_println " µW/cm²";;
    Serial_print "UVB: ";; Serial_print (String_float uvbData 4);;
    Serial_println " µW/cm²";;
    Serial_print "UVC: ";; Serial_print (String_float uvcData 4);;
    Serial_println " µW/cm²";;
    Serial_print "Temperature: ";; Serial_print (String_float tempData 2);;
    Serial_println " °C";;
    (if float_is_zero uvaData && float_is_zero uvbData && float_is_zero uvcData
     then zero_warning
     else ret tt);;
    jsonPayload <- createJsonPayload uvaData uvbData uvcData tempData;;
    Serial_println (nl ++ "JSON Payload:");;
    Serial_println jsonPayload;;
    st <- WiFi_status;;
    (if st =? WL_CONNECTED env then
       sendDataToServer jsonPayload
     else
       Serial_println "WiFi not connected. Attempting to reconnect...";;
       connectWiFi);;
    Serial_println "".

(** [setup()] *)
Definition setup : M unit :=
  Serial_begin 115200;;
  delay 1000;;
  Serial_println (nl ++ "=== AS7331 UV Sensor Logger ===");;
  Wire_begin SDA_PIN SCL_PIN;;
  Serial_println "I2C initialized";;
  present <- uvSensor_begin;;
  (if negb present then
     Serial_println "ERROR: AS7331 sensor not detected!";;
     Serial_println "Check wiring and I2C address (default: 0x74)";;
     halt_forever
   else ret tt);;
  Serial_println "AS7331 sensor initialized";;
  configureSensor;;
  connectWiFi;;
  Serial_println ("Setup complete. Starting measurements..." ++ nl).

(** The test of [loop()]: is a cycle due? *)
Definition cycle_due (w : World) : bool :=
  POST_INTERVAL <=? usub (clock w mod ULONG_MODULUS) (lastPostTime w).

(** [loop()] *)
Definition loop : M unit :=
  now <- millis;;
  last <- get_lastPostTime;;
  (if POST_INTERVAL <=? usub now last then
     readAndPostData;;
     t <- millis;;
     put_lastPostTime t
   else ret tt);;
  delay 100.

(** The Arduino runtime: [setup()] once, then [loop()] for ever.  A
    machine that is caught in a halt loop spends each step in one more
    [delay(1000)].  The machine keeps the history of all calls made. *)
Inductive Phase : Type := Booting | Looping | Stuck.

Record Machine : Type := mkMachine {
  phase : Phase;
  world : World;
  history : list Event
}.

Definition enter {A : Type} (h : list Event) (r : Result A) : Machine :=
  match value r with
  | Returned _ => mkMachine Looping (final r) (h ++ events r)
  | Halted => mkMachine Stuck (final r) (h ++ events r)
  end.

Definition step (m : Machine) : Machine :=
  match phase m with
  | Booting => enter (history m) (setup (world m))
  | Looping => enter (history m) (loop (world m))
  | Stuck =>
      let r := delay 1000 (world m) in
      mkMachine Stuck (final r) (history m ++ events r)
  end.

Fixpoint run (n : nat) (m : Machine) : Machine :=
  match n with
  | O => m
  | S n' => run n' (step m)
  end.

(** The clock readings at which the first [n] steps of [m] started an
    acquisition cycle. *)
Fixpoint cycle_starts (n : nat) (m : Machine) : list Z :=
  match n with
  | O => []
  | S n' =>
      match phase m with
      | Looping =>
          if cycle_due (world m)
          then clock (world m) :: cycle_starts n' (step m)
          else cycle_starts n' (step m)
      | _ => cycle_starts n' (step m)
      end
  end.

End Sketch.

(** Three things a computation may guarantee from every world: that it
    returns; that the clock does not run backwards and [lastPostTime] is
    left alone; that it issues no [http.POST]. *)
Definition returns {A : Type} (m : M A) : Prop :=
  forall w, exists a, value (m w) = Returned a.

Definition steady {A : Type} (m : M A) : Prop :=
  forall w,
    clock w <= clock (final (m w)) /\
    lastPostTime (final (m w)) = lastPostTime w.

Definition postless {A : Type} (m : M A) : Prop :=
  forall w,
    count is_post (events (m w)) = 0%nat /\ posts (final (m w)) = posts w.

(** The lines [readAndPostData()] prints about a sample it has read, the
    lines of its all-zero warning, and its all-zero test. *)
Definition reading_lines (s : Readings) : list Event :=
  [ SerialPrintln "Read successful!";
    SerialPrint "UVA: "; SerialPrint (String_float (reg_uva s) 4);
    SerialPrintln " µW/cm²";
    SerialPrint "UVB: "; SerialPrint (String_float (reg_uvb s) 4);
    SerialPrintln " µW/cm²";
    SerialPrint "UVC: "; SerialPrint (String_float (reg_uvc s) 4);
    SerialPrintln " µW/cm²";
    SerialPrint "Temperature: "; SerialPrint (String_float (reg_temp s) 2);
    SerialPrintln " °C" ].

Definition warning_lines : list Event :=
  [ SerialPrintln "WARNING: All UV values are zero!";
    SerialPrintln "Try: 1) Shining UV light directly on sensor";
    SerialPrintln "     2) Checking if UV light emits in 220-400nm range";
    SerialPrintln "     3) Removing any protective covering on sensor" ].

Definition all_zero (s : Readings) : bool :=
  float_is_zero (reg_uva s) && float_is_zero (reg_uvb s) && float_is_zero (reg_uvc s).

(** The last stage of [readAndPostData()], after the status check:
    post when connected, reconnect when not. *)
Definition transmit_stage (env : Env) (connected : bool) (jsonPayload : string) : M unit :=
  if connected then sendDataToServer env jsonPayload
  else
    Serial_println env "WiFi not connected. Attempting to reconnect...";;
    connectWiFi env.

(** One round of the wait in [connectWiFi()]. *)
Definition waiting_round : list Event := [WiFiStatus; Delay 500; SerialPrint "."].

(** What [setup()] does up to and including its report of a missing
    sensor. *)
Definition absent_sensor_lines : list Event :=
  [ SerialBegin 115200; Delay 1000;
    SerialPrintln (nl ++ "=== AS7331 UV Sensor Logger ===");
    WireBegin SDA_PIN SCL_PIN;
    SerialPrintln "I2C initialized";
    SensorBegin;
    SerialPrintln "ERROR: AS7331 sensor not detected!";
    SerialPrintln "Check wiring and I2C address (default: 0x74)" ].

(** What [setup()] does up to the hand-over to the sensor configuration,
    when the sensor is there ... *)
Definition sensor_found_lines : list Event :=
  [ SerialBegin 115200; Delay 1000;
    SerialPrintln (nl ++ "=== AS7331 UV Sensor Logger ===");
    WireBegin SDA_PIN SCL_PIN;
    SerialPrintln "I2C initialized";
    SensorBegin;
    SerialPrintln "AS7331 sensor initialized" ].

(** ... what [configureSensor()] does up to and including its request
    for continuous measurement ... *)
Definition prepare_lines (env : Env) : list Event :=
  [ SerialPrintln "Configuring AS7331 sensor...";
    SerialPrint "Current Gain: ";
    SensorGetGainValue;
    SerialPrintln (String_int (gain_value env));
    SerialPrint "Current Conversion Time (ms): ";
    SensorGetConversionTimeMillis;
    SerialPrintln (String_int (conversion_time env));
    SensorPrepareMeasurement (MEAS_MODE_CONT env) true ].

(** ... and what it does after the sensor has accepted. *)
Definition running_lines : list Event :=
  [ SerialPrintln "Sensor configured and measurement started in CONT mode";
    SerialPrintln "Waiting for first conversion to complete...";
    Delay 1000;
    SerialPrintln (nl ++ "Sensor is now running. Shine UV light on it!") ].

(** How [connectWiFi()] ends, by the answer of its last status poll. *)
Definition verdict_lines (env : Env) (connected : bool) : list Event :=
  if connected
  then [ SerialPrintln (nl ++ "WiFi connected!");
         SerialPrint "IP Address: ";
         WiFiLocalIP;
         SerialPrintln (local_ip env) ]
  else [ SerialPrintln (nl ++ "WiFi connection failed!") ].

Definition is_status (e : Event) : bool :=
  match e with WiFiStatus => true | _ => false end.

(** A computation that makes no call of the kind [p]. *)
Definition silent (p : Event -> bool) {A : Type} (m : M A) : Prop :=
  forall w, count p (events (m w)) = 0%nat.

(** A computation during which the clock advances at least by the
    half-second delays it makes. *)
Definition paced {A : Type} (m : M A) : Prop :=
  forall w,
    clock w + 500 * Z.of_nat (count (is_delay 500) (events (m w))) <=
    clock (final (m w)).

(** Reading a decimal text back, as the receiving end does with the
    timestamp member. *)
Definition decode_ulong (s : string) : option Z :=
  option_map (fun u => Z.of_N (N.of_uint u)) (NilZero.uint_of_string s).

(** The value of a member of a JSON object, by key. *)
Fixpoint lookup (key : string) (obj : list (string * string)) : option string :=
  match obj with
  | [] => None
  | (k, v) :: rest => if String.eqb k key then Some v else lookup key rest
  end.

(** Consecutive entries of [l] are at least [gap] apart. *)
Fixpoint separated (gap : Z) (l : list Z) : Prop :=
  match l with
  | a :: (b :: _) as rest => a + gap <= b /\ separated gap rest
  | _ => True
  end.

(** The world at power-on. *)
Definition no_readings : Readings :=
  mkReadings (S754_zero false) (S754_zero false) (S754_zero false) (S754_zero false).
Definition power_on : World := mkWorld 0 0 no_readings 0 0 0 0.
Definition boot : Machine := mkMachine Booting power_on [].

(** The record as the spec words it: [encode(sample, timestampMillis)],
    seven members in the order of the wire format. *)
Definition member (key value : string) : string := quoted key ++ ":" ++ value.

Definition encode (sample : Readings) (timestampMillis : Z) : string :=
  "{" ++ member "timestamp" (String_ulong timestampMillis) ++ "," ++
  member "uva" (String_float (reg_uva sample) 2) ++ "," ++
  member "uvb" (String_float (reg_uvb sample) 2) ++ "," ++
  member "uvc" (String_float (reg_uvc sample) 2) ++ "," ++
  member "temperature" (String_float (reg_temp sample) 2) ++ "," ++
  member "device" (quoted "ESP32-C6") ++ "," ++
  member "sensor" (quoted "AS7331") ++ "}".

(* ================================================================== *)
(** ** Sample values and environments *)

(** 1.5f, 10000.0f, 0.125f, -0.004f and 3.14159274f as binary32 values. *)
Definition f_1_5 : float := S754_finite false 3 (-1).
Definition f_10000 : float := S754_finite false 10000 0.
Definition f_0_125 : float := S754_finite false 1 (-3).
Definition f_m0_004 : float := S754_finite true 8589935 (-31).
Definition f_pi : float := S754_finite false 13176795 (-22).
Definition f_zero : float := S754_zero false.

Definition sunny : Readings := mkReadings f_1_5 f_0_125 f_m0_004 f_10000.
Definition dark : Readings := mkReadings f_zero (S754_zero true) f_zero f_pi.

(** A bench set-up: sensor present, access point in reach, server
    answering 200; every collaborator call takes 2 ms. *)
Definition bench : Env :=
  mkEnv 3 0 0 true 2 64 true
    (fun _ => (0, sunny))
    (fun _ => 3) "192.168.1.20"
    (fun _ _ => 200) (fun _ => "OK") (fun _ => "connection refused")
    (fun _ => 2%N).

(** Variations of the bench. *)
Definition with_sensor (present : bool) (read : nat -> Z * Readings) (e : Env) : Env :=
  mkEnv (WL_CONNECTED e) (ksfTkErrOk e) (MEAS_MODE_CONT e) present
    (gain_value e) (conversion_time e) (prepare_result e) read
    (status_result e) (local_ip e) (POST_result e) (getString_result e)
    (errorToString_result e) (latency e).

Definition with_network (status : nat -> Z) (post : nat -> string -> Z) (e : Env) : Env :=
  mkEnv (WL_CONNECTED e) (ksfTkErrOk e) (MEAS_MODE_CONT e) (begin_result e)
    (gain_value e) (conversion_time e) (prepare_result e) (readAll_result e)
    status (local_ip e) post (getString_result e)
    (errorToString_result e) (latency e).

Definition no_sensor : Env := with_sensor false (fun _ => (-1, no_readings)) bench.
Definition failing_reads : Env := with_sensor true (fun _ => (-1, no_readings)) bench.
Definition dark_room : Env := with_sensor true (fun _ => (0, dark)) bench.
Definition server_404 : Env := with_network (fun _ => 3) (fun _ _ => 404) bench.
Definition server_unreachable : Env := with_network (fun _ => 3) (fun _ _ => -1) bench.
Definition no_wifi : Env := with_network (fun _ => 6) (fun _ _ => 200) bench.
(** The access point comes back right after the transmit-stage check. *)
Definition wifi_returns : Env :=
  with_network (fun k => if (k =? 0)%nat then 6 else 3) (fun _ _ => 200) bench.

(** The access point answers from the fourth poll on. *)
Definition slow_wifi : Env :=
  with_network (fun k => if (k <? 3)%nat then 6 else 3) (fun _ _ => 200) bench.
(** The link flaps: connected at every even poll only. *)
Definition flapping_wifi : Env :=
  with_network (fun k => if Nat.even k then 3 else 6) (fun _ _ => 200) bench.
(** The sensor is found but rejects the continuous mode. *)
Definition stubborn_sensor : Env :=
  mkEnv (WL_CONNECTED bench) (ksfTkErrOk bench) (MEAS_MODE_CONT bench) true
    (gain_value bench) (conversion_time bench) false (readAll_result bench)
    (status_result bench) (local_ip bench) (POST_result bench)
    (getString_result bench) (errorToString_result bench) (latency bench).

(** A world a little over two minutes after boot, last tick at one minute. *)
Definition midday : World := mkWorld 123456 60000 no_readings 40 0 2 0.

(* ================================================================== *)
(** * Properties *)

(** ** Text *)

Arguments String_float : simpl never.
Arguments String_ulong : simpl never.
Arguments String_int : simpl never.

Lemma append_assoc (a b c : string) : (a ++ b) ++ c = a ++ (b ++ c).
Proof. induction a as [|x a IH]; simpl; [reflexivity | now rewrite IH]. Qed.

Lemma all_chars_append (p : ascii -> bool) (a b : string) :
  all_chars p (a ++ b) = all_chars p a && all_chars p b.
Proof.
  induction a as [|x a IH]; simpl; [reflexivity|].
  now rewrite IH, andb_assoc.
Qed.

Lemma all_chars_weaken (p q : ascii -> bool) (s : string) :
  (forall c, p c = true -> q c = true) ->
  all_chars p s = true -> all_chars q s = true.
Proof.
  intros Hpq. induction s as [|x s IH]; simpl; [reflexivity|].
  intros H. apply andb_true_iff in H as [Hx Hs].
  now rewrite (Hpq _ Hx), IH.
Qed.


Lemma digit_char_is_digit (k : Z) : 0 <= k < 10 -> is_digit (digit_char k) = true.
Proof.
  intros Hk. unfold digit_char.
  assert (Hn : (Z.to_nat k < 10)%nat) by lia.
  revert Hn. generalize (Z.to_nat k) as n. intros n Hn.
  do 10 (destruct n as [|n]; [reflexivity|]). lia.
Qed.

Lemma uint_digits (d : Decimal.uint) :
  all_chars is_digit (NilEmpty.string_of_uint d) = true.
Proof. induction d; simpl; auto. Qed.

Lemma String_ulong_digits (n : Z) : all_chars is_digit (String_ulong n) = true.
Proof.
  unfold String_ulong, NilZero.string_of_uint.
  destruct (N.to_uint (Z.to_N n)) eqn:E; try reflexivity;
    rewrite <- E; apply uint_digits || (simpl; apply uint_digits).
Qed.

Lemma frac_digits_digits (d : nat) (r : Z) :
  all_chars is_digit (frac_digits d r) = true.
Proof.
  revert r. induction d as [|d IH]; intros r; cbn [frac_digits]; [reflexivity|].
  rewrite all_chars_append, IH. cbn [all_chars andb].
  rewrite digit_char_is_digit; [reflexivity|].
  apply Z.mod_pos_bound. lia.
Qed.





Lemma digit_is_scalar (c : ascii) : is_digit c = true -> is_scalar_char c = true.
Proof.
  destruct c as [[] [] [] [] [] [] [] []]; intros H; try reflexivity; discriminate H.
Qed.

Lemma fixed_point_scalar (q : Z) (d : nat) :
  all_chars is_scalar_char (fixed_point q d) = true.
Proof.
  unfold fixed_point. rewrite all_chars_append.
  rewrite (all_chars_weaken is_digit _ _ digit_is_scalar (String_ulong_digits _)).
  destruct d as [|d]; [reflexivity|].
  cbn [all_chars andb].
  rewrite (all_chars_weaken is_digit _ _ digit_is_scalar (frac_digits_digits _ _)).
  reflexivity.
Qed.

Lemma String_float_scalar (x : float) (d : nat) :
  all_chars is_scalar_char (String_float x d) = true.
Proof.
  unfold String_float. destruct x as [s|s| |s m e].
  - apply fixed_point_scalar.
  - destruct s; reflexivity.
  - reflexivity.
  - rewrite all_chars_append, fixed_point_scalar. destruct s; reflexivity.
Qed.

Lemma String_ulong_scalar (n : Z) : all_chars is_scalar_char (String_ulong n) = true.
Proof. exact (all_chars_weaken is_digit _ _ digit_is_scalar (String_ulong_digits n)). Qed.

Lemma scalar_not_separator (c : ascii) :
  is_scalar_char c = true ->
  Ascii.eqb c "," = false /\ Ascii.eqb c "}" = false /\ Ascii.eqb c ":" = false.
Proof.
  unfold is_scalar_char, is_separator. intros H.
  apply negb_true_iff in H.
  apply orb_false_iff in H as [H H3]. apply orb_false_iff in H as [H1 H2].
  auto.
Qed.

Lemma key_value_colon (k v : string) :
  all_chars is_scalar_char k = true -> key_value (k ++ ":" ++ v) = (k, v).
Proof.
  change (":" ++ v) with (String ":" v).
  induction k as [|c k IH]; cbn [append all_chars key_value]; intros H.
  - reflexivity.
  - apply andb_true_iff in H as [Hc Hk].
    destruct (scalar_not_separator c Hc) as (_ & _ & ->).
    now rewrite (IH Hk).
Qed.

(** A member made of a scalar key and a scalar value is cut off at the
    comma or brace that follows it. *)
Lemma members_comma (k v r : string) :
  all_chars is_scalar_char k = true -> all_chars is_scalar_char v = true ->
  members (k ++ ":" ++ v ++ "," ++ r) = (k ++ ":" ++ v) :: members r.
Proof.
  change (k ++ ":" ++ v) with (k ++ String ":" v).
  change (":" ++ v ++ "," ++ r) with (String ":" (v ++ String "," r)).
  intros Hk Hv. induction k as [|c k IH]; cbn [append all_chars members] in *.
  - change (Ascii.eqb ":" "}") with false. change (Ascii.eqb ":" ",") with false.
    cbn iota.
    assert (E : members (v ++ String "," r) = v :: members r).
    { clear Hk. induction v as [|c v IH]; cbn [append all_chars members] in *.
      - reflexivity.
      - apply andb_true_iff in Hv as [Hc Hv].
        destruct (scalar_not_separator c Hc) as (-> & -> & _).
        now rewrite (IH Hv). }
    now rewrite E.
  - apply andb_true_iff in Hk as [Hc Hk].
    destruct (scalar_not_separator c Hc) as (-> & -> & _).
    now rewrite (IH Hk).
Qed.

Lemma members_brace (k v r : string) :
  all_chars is_scalar_char k = true -> all_chars is_scalar_char v = true ->
  members (k ++ ":" ++ v ++ "}" ++ r) = [k ++ ":" ++ v].
Proof.
  change (k ++ ":" ++ v) with (k ++ String ":" v).
  change (":" ++ v ++ "}" ++ r) with (String ":" (v ++ String "}" r)).
  intros Hk Hv. induction k as [|c k IH]; cbn [append all_chars members] in *.
  - change (Ascii.eqb ":" "}") with false. change (Ascii.eqb ":" ",") with false.
    cbn iota.
    assert (E : members (v ++ String "}" r) = [v]).
    { clear Hk. induction v as [|c v IH]; cbn [append all_chars members] in *.
      - reflexivity.
      - apply andb_true_iff in Hv as [Hc Hv].
        destruct (scalar_not_separator c Hc) as (-> & -> & _).
        now rewrite (IH Hv). }
    now rewrite E.
  - apply andb_true_iff in Hk as [Hc Hk].
    destruct (scalar_not_separator c Hc) as (-> & -> & _).
    now rewrite (IH Hk).
Qed.

(** What the receiving end reads out of an encoded record. *)
Lemma json_object_encode (r : Readings) (t : Z) :
  json_object (encode r t) =
  [ (quoted "timestamp", String_ulong t);
    (quoted "uva", String_float (reg_uva r) 2);
    (quoted "uvb", String_float (reg_uvb r) 2);
    (quoted "uvc", String_float (reg_uvc r) 2);
    (quoted "temperature", String_float (reg_temp r) 2);
    (quoted "device", quoted "ESP32-C6");
    (quoted "sensor", quoted "AS7331") ].
Proof.
  unfold encode, member.
  change ("{" ++ ?x) with (String "{" x).
  cbn [json_object]. change (Ascii.eqb "{" "{") with true. cbn iota.
  repeat rewrite append_assoc.
  change (quoted "AS7331" ++ "}") with (quoted "AS7331" ++ "}" ++ "").
  rewrite !members_comma, members_brace;
    try apply String_float_scalar; try apply String_ulong_scalar;
    try reflexivity.
  all: cbn [map]; rewrite !key_value_colon;
    try apply String_float_scalar; try apply String_ulong_scalar;
    reflexivity.
Qed.

(* ================================================================== *)
(** ** The encoder *)

(** [createJsonPayload] computes the spec's [encode] of its arguments and
    of the clock reading, and does nothing else. *)
Lemma createJsonPayload_encode (uva uvb uvc temp : float) (w : World) :
  createJsonPayload uva uvb uvc temp w =
  mkResult (Returned (encode (mkReadings uva uvb uvc temp) (clock w mod ULONG_MODULUS)))
           w [].
Proof.
  unfold createJsonPayload, bind, millis, ret, prepend.
  cbn [value final events app].
  f_equal. f_equal. unfold encode, member. cbn [reg_uva reg_uvb reg_uvc reg_temp].
  repeat rewrite append_assoc. reflexivity.
Qed.

(** C1.  The encoder is a function of the sample and the timestamp alone:
    in two worlds whose clocks read the same [millis()], the same four
    values are encoded to the same text; the call returns, leaves the
    world as it found it and makes no call on any collaborator; and
    calling it twice in a row gives the same text twice. *)
Theorem createJsonPayload_pure (uva uvb uvc temp : float) (w1 w2 : World) :
  clock w1 mod ULONG_MODULUS = clock w2 mod ULONG_MODULUS ->
  value (createJsonPayload uva uvb uvc temp w1) =
    value (createJsonPayload uva uvb uvc temp w2) /\
  (exists json, value (createJsonPayload uva uvb uvc temp w1) = Returned json) /\
  final (createJsonPayload uva uvb uvc temp w1) = w1 /\
  events (createJsonPayload uva uvb uvc temp w1) = [] /\
  value ((first <- createJsonPayload uva uvb uvc temp;;
          second <- createJsonPayload uva uvb uvc temp;;
          ret (String.eqb first second)) w1) = Returned true.
Proof.
  intros Hclock. unfold bind. rewrite !createJsonPayload_encode.
  cbn [value final events prepend]. rewrite ?createJsonPayload_encode.
  cbn [value final events prepend ret]. rewrite Hclock, String.eqb_refl.
  repeat split. eexists. reflexivity.
Qed.

(** Two worlds that differ in everything but the low 32 bits of the clock. *)
Lemma createJsonPayload_pure_witness :
  clock midday mod ULONG_MODULUS =
    clock (mkWorld (123456 + 2 ^ 32) 7 sunny 1 2 3 4) mod ULONG_MODULUS /\
  value (createJsonPayload f_1_5 f_0_125 f_zero f_10000 midday) =
    value (createJsonPayload f_1_5 f_0_125 f_zero f_10000
             (mkWorld (123456 + 2 ^ 32) 7 sunny 1 2 3 4)).
Proof.
  split; [reflexivity|].
  apply (createJsonPayload_pure f_1_5 f_0_125 f_zero f_10000 midday
           (mkWorld (123456 + 2 ^ 32) 7 sunny 1 2 3 4)).
  reflexivity.
Defined.



(* ================================================================== *)
(** ** Running sketch code *)

Lemma bind_Returned {A B : Type} (m : M A) (k : A -> M B) (w : World) (a : A) :
  value (m w) = Returned a ->
  bind m k w = prepend (events (m w)) (k a (final (m w))).
Proof. intros H. unfold bind. now rewrite H. Qed.

Lemma count_app (p : Event -> bool) (l1 l2 : list Event) :
  count p (l1 ++ l2) = (count p l1 + count p l2)%nat.
Proof. unfold count. now rewrite filter_app, length_app. Qed.

(** Unfolds the collaborator calls down to [call] and [delay]. *)
Ltac unfold_calls :=
  unfold Serial_begin, Serial_print, Serial_println, Wire_begin,
    uvSensor_begin, uvSensor_getGainValue, uvSensor_getConversionTimeMillis,
    uvSensor_prepareMeasurement, uvSensor_readAll,
    uvSensor_getUVA, uvSensor_getUVB, uvSensor_getUVC, uvSensor_getTemp,
    WiFi_begin, WiFi_status, WiFi_localIP,
    http_begin, http_addHeader, http_POST, http_getString,
    http_errorToString, http_end,
    get_lastPostTime, put_lastPostTime, millis in *.

Section Laws.

Context (env : Env).

Lemma returns_ret {A : Type} (a : A) : returns (ret a).
Proof. intros w. now exists a. Qed.

Lemma returns_bind {A B : Type} (m : M A) (k : A -> M B) :
  returns m -> (forall a, returns (k a)) -> returns (bind m k).
Proof.
  intros Hm Hk w. destruct (Hm w) as [a Ha].
  rewrite (bind_Returned _ _ _ _ Ha). cbn [value prepend]. apply Hk.
Qed.

Lemma returns_call (e : Event) : returns (call env e).
Proof. intros w. now exists tt. Qed.

Lemma returns_delay (ms : Z) : returns (delay ms).
Proof. intros w. now exists tt. Qed.

Lemma steady_ret {A : Type} (a : A) : steady (ret a).
Proof. intros w. cbn. split; [lia | reflexivity]. Qed.

Lemma steady_bind {A B : Type} (m : M A) (k : A -> M B) :
  steady m -> (forall a, steady (k a)) -> steady (bind m k).
Proof.
  intros Hm Hk w. destruct (Hm w) as [Hc Hl]. unfold bind.
  destruct (value (m w)) as [a|]; cbn [final prepend]; [|now split].
  destruct (Hk a (final (m w))) as [Hc' Hl']. split; [lia | congruence].
Qed.

Lemma steady_call (e : Event) : steady (call env e).
Proof. intros w. cbn. split; [lia | reflexivity]. Qed.

Lemma steady_delay (ms : Z) : 0 <= ms -> steady (delay ms).
Proof. intros H w. cbn. split; [lia | reflexivity]. Qed.

Lemma steady_halt {A : Type} : steady (@halt_forever A).
Proof. intros w. cbn. split; [lia | reflexivity]. Qed.

Lemma postless_ret {A : Type} (a : A) : postless (ret a).
Proof. intros w. now split. Qed.

Lemma postless_bind {A B : Type} (m : M A) (k : A -> M B) :
  postless m -> (forall a, postless (k a)) -> postless (bind m k).
Proof.
  intros Hm Hk w. destruct (Hm w) as [Hc Hp]. unfold bind.
  destruct (value (m w)) as [a|]; cbn [final events prepend]; [|now split].
  destruct (Hk a (final (m w))) as [Hc' Hp']. rewrite count_app. split; [lia | congruence].
Qed.

Lemma postless_call (e : Event) : is_post e = false -> postless (call env e).
Proof. intros H w. unfold count. cbn. rewrite H. now split. Qed.

Lemma postless_delay (ms : Z) : postless (delay ms).
Proof. intros w. now split. Qed.

(** Equations for running a sequence one statement at a time. *)
Lemma prepend_nil {A : Type} (r : Result A) : prepend [] r = r.
Proof. now destruct r. Qed.

Lemma prepend_prepend {A : Type} (l1 l2 : list Event) (r : Result A) :
  prepend l1 (prepend l2 r) = prepend (l1 ++ l2) r.
Proof. unfold prepend. cbn. now rewrite app_assoc. Qed.

Lemma bind_ret {A B : Type} (a : A) (k : A -> M B) (w : World) :
  bind (ret a) k w = k a w.
Proof. unfold bind. cbn. apply prepend_nil. Qed.

Lemma bind_bind {A B C : Type} (m : M A) (k : A -> M B) (k' : B -> M C) (w : World) :
  bind (bind m k) k' w = bind m (fun a => bind (k a) k') w.
Proof.
  unfold bind. destruct (m w) as [[a|] f e]; cbn; [|reflexivity].
  destruct (k a f) as [[b|] f' e']; cbn; [|reflexivity].
  symmetry. apply prepend_prepend.
Qed.

Lemma bind_call {B : Type} (e : Event) (k : unit -> M B) (w : World) :
  bind (call env e) k w = prepend [e] (k tt (elapse env w)).
Proof. reflexivity. Qed.

Lemma bind_delay {B : Type} (ms : Z) (k : unit -> M B) (w : World) :
  bind (delay ms) k w = prepend [Delay ms] (k tt (set_clock (clock w + ms) w)).
Proof. reflexivity. Qed.

Lemma bind_millis {B : Type} (k : Z -> M B) (w : World) :
  bind millis k w = k (clock w mod ULONG_MODULUS) w.
Proof. unfold bind. cbn. apply prepend_nil. Qed.

Lemma bind_get_lastPostTime {B : Type} (k : Z -> M B) (w : World) :
  bind get_lastPostTime k w = k (lastPostTime w) w.
Proof. unfold bind. cbn. apply prepend_nil. Qed.

Lemma bind_put_lastPostTime {B : Type} (t : Z) (k : unit -> M B) (w : World) :
  bind (put_lastPostTime t) k w = k tt (set_lastPostTime t w).
Proof. unfold bind. cbn. apply prepend_nil. Qed.

Lemma bind_readAll {B : Type} (k : Z -> M B) (w : World) :
  bind (uvSensor_readAll env) k w =
  prepend [SensorReadAll]
    (k (fst (readAll_result env (reads w)))
       (elapse env (set_regs (snd (readAll_result env (reads w)))
                             (set_reads (S (reads w)) w)))).
Proof.
  unfold uvSensor_readAll, bind at 1. cbn [value final events].
  rewrite bind_call. reflexivity.
Qed.

Lemma bind_getUVA {B : Type} (k : float -> M B) (w : World) :
  bind uvSensor_getUVA k w = k (reg_uva (regs w)) w.
Proof. unfold bind. cbn. apply prepend_nil. Qed.

Lemma bind_getUVB {B : Type} (k : float -> M B) (w : World) :
  bind uvSensor_getUVB k w = k (reg_uvb (regs w)) w.
Proof. unfold bind. cbn. apply prepend_nil. Qed.

Lemma bind_getUVC {B : Type} (k : float -> M B) (w : World) :
  bind uvSensor_getUVC k w = k (reg_uvc (regs w)) w.
Proof. unfold bind. cbn. apply prepend_nil. Qed.

Lemma bind_getTemp {B : Type} (k : float -> M B) (w : World) :
  bind uvSensor_getTemp k w = k (reg_temp (regs w)) w.
Proof. unfold bind. cbn. apply prepend_nil. Qed.

Lemma bind_status {B : Type} (k : Z -> M B) (w : World) :
  bind (WiFi_status env) k w =
  prepend [WiFiStatus]
    (k (status_result env (polls w)) (elapse env (set_polls (S (polls w)) w))).
Proof.
  unfold WiFi_status, bind at 1. cbn [value final events].
  rewrite bind_call. reflexivity.
Qed.

Lemma bind_POST {B : Type} (body : string) (k : Z -> M B) (w : World) :
  bind (http_POST env body) k w =
  prepend [HttpPOST body]
    (k (POST_result env (posts w) body) (elapse env (set_posts (S (posts w)) w))).
Proof.
  unfold http_POST, bind at 1. cbn [value final events].
  rewrite bind_call. reflexivity.
Qed.

Lemma bind_getString {B : Type} (k : string -> M B) (w : World) :
  bind (http_getString env) k w =
  prepend [HttpGetString] (k (getString_result env (posts w)) (elapse env w)).
Proof.
  unfold http_getString, bind at 1. cbn [value final events].
  rewrite bind_call. reflexivity.
Qed.

Lemma run_call (e : Event) (w : World) :
  call env e w = mkResult (Returned tt) (elapse env w) [e].
Proof. reflexivity. Qed.

Lemma bind_createJsonPayload {B : Type} (a b c t : float) (k : string -> M B) (w : World) :
  bind (createJsonPayload a b c t) k w =
  k (encode (mkReadings a b c t) (clock w mod ULONG_MODULUS)) w.
Proof. unfold bind. rewrite createJsonPayload_encode. cbn. apply prepend_nil. Qed.

Lemma bind_zero_warning {B : Type} (k : unit -> M B) (w : World) :
  bind (zero_warning env) k w =
  prepend warning_lines (k tt (elapse env (elapse env (elapse env (elapse env w))))).
Proof.
  unfold zero_warning, Serial_println.
  rewrite !bind_bind, !bind_call. cbn beta.
  rewrite !bind_bind, !bind_call. cbn beta.
  rewrite !bind_bind, !bind_call. cbn beta.
  unfold bind, call. cbn [value final events].
  now rewrite !prepend_prepend.
Qed.


Lemma elapse_lastPostTime (w : World) : lastPostTime (elapse env w) = lastPostTime w.
Proof. reflexivity. Qed.
Lemma elapse_regs (w : World) : regs (elapse env w) = regs w.
Proof. reflexivity. Qed.
Lemma elapse_reads (w : World) : reads (elapse env w) = reads w.
Proof. reflexivity. Qed.
Lemma elapse_polls (w : World) : polls (elapse env w) = polls w.
Proof. reflexivity. Qed.
Lemma elapse_posts (w : World) : posts (elapse env w) = posts w.
Proof. reflexivity. Qed.

End Laws.

Arguments elapse : simpl never.

(** Runs the next statement of a sequence. *)
Ltac step :=
  first
    [ rewrite bind_bind | rewrite bind_call | rewrite bind_delay
    | rewrite bind_ret | rewrite bind_millis
    | rewrite bind_get_lastPostTime | rewrite bind_put_lastPostTime
    | rewrite bind_readAll | rewrite bind_status
    | rewrite bind_POST | rewrite bind_getString
    | rewrite bind_getUVA | rewrite bind_getUVB | rewrite bind_getUVC
    | rewrite bind_getTemp | rewrite bind_createJsonPayload
    | rewrite bind_zero_warning | rewrite prepend_prepend
    | rewrite elapse_regs | rewrite elapse_polls | rewrite elapse_posts
    | rewrite elapse_reads | rewrite elapse_lastPostTime ];
  cbn beta.

Create HintDb sketch.

#[local] Hint Resolve returns_ret returns_call returns_delay : sketch.
#[local] Hint Resolve steady_ret steady_call steady_halt : sketch.
#[local] Hint Resolve postless_ret postless_delay : sketch.

(** A collaborator call that only consumes an oracle answer. *)
Ltac primitive :=
  solve [ intros ?w; eexists; reflexivity
        | intros ?w; cbn; unfold elapse; cbn; split; [lia | reflexivity]
        | intros ?w; split; reflexivity ].

(** Goes through a sketch function statement by statement. *)
Ltac by_statements :=
  repeat first
    [ solve [auto with sketch]
    | apply returns_bind; [|intros ?]
    | apply steady_bind; [|intros ?]
    | apply postless_bind; [|intros ?]
    | apply steady_delay; lia
    | apply postless_call; reflexivity
    | match goal with
      | |- returns (if ?b then _ else _) => destruct b
      | |- steady (if ?b then _ else _) => destruct b
      | |- postless (if ?b then _ else _) => destruct b
      | |- returns (match ?n with O => _ | S _ => _ end) => destruct n
      end
    | primitive ].

Section Cycle.

Context (env : Env).

Lemma await_connection_returns (budget : nat) : returns (await_connection env budget).
Proof.
  induction budget as [|b IH]; cbn [await_connection]; unfold_calls; by_statements.
Qed.

Lemma await_connection_steady (budget : nat) : steady (await_connection env budget).
Proof.
  induction budget as [|b IH]; cbn [await_connection]; unfold_calls; by_statements.
Qed.

Lemma await_connection_postless (budget : nat) : postless (await_connection env budget).
Proof.
  induction budget as [|b IH]; cbn [await_connection]; unfold_calls; by_statements.
Qed.

#[local] Hint Resolve await_connection_returns await_connection_steady
  await_connection_postless : sketch.

Lemma connectWiFi_returns : returns (connectWiFi env).
Proof. unfold connectWiFi. unfold_calls. by_statements. Qed.

Lemma connectWiFi_steady : steady (connectWiFi env).
Proof. unfold connectWiFi. unfold_calls. by_statements. Qed.

(** Reconnecting never posts, whatever the network answers. *)
Lemma connectWiFi_postless : postless (connectWiFi env).
Proof. unfold connectWiFi. unfold_calls. by_statements. Qed.

Lemma sendDataToServer_returns (json : string) : returns (sendDataToServer env json).
Proof. unfold sendDataToServer. unfold_calls. by_statements. Qed.

Lemma sendDataToServer_steady (json : string) : steady (sendDataToServer env json).
Proof. unfold sendDataToServer. unfold_calls. by_statements. Qed.

#[local] Hint Resolve connectWiFi_returns connectWiFi_steady connectWiFi_postless
  sendDataToServer_returns sendDataToServer_steady : sketch.

Lemma zero_warning_returns : returns (zero_warning env).
Proof. unfold zero_warning. unfold_calls. by_statements. Qed.

Lemma zero_warning_steady : steady (zero_warning env).
Proof. unfold zero_warning. unfold_calls. by_statements. Qed.

Lemma createJsonPayload_returns (a b c t : float) : returns (createJsonPayload a b c t).
Proof. intros w. rewrite createJsonPayload_encode. now eexists. Qed.

Lemma createJsonPayload_steady (a b c t : float) : steady (createJsonPayload a b c t).
Proof. intros w. rewrite createJsonPayload_encode. cbn. split; [lia | reflexivity]. Qed.

#[local] Hint Resolve zero_warning_returns zero_warning_steady
  createJsonPayload_returns createJsonPayload_steady : sketch.

(** A cycle always comes back to [loop()] ... *)
Lemma readAndPostData_returns : returns (readAndPostData env).
Proof. unfold readAndPostData. unfold_calls. by_statements. Qed.

(** ... later than it started, and without touching the schedule. *)
Lemma readAndPostData_steady : steady (readAndPostData env).
Proof. unfold readAndPostData. unfold_calls. by_statements. Qed.

(** *** Sensor read failure *)

(** What a cycle does when the read fails, in full. *)
Lemma readAndPostData_failure (w : World) :
  fst (readAll_result env (reads w)) <> ksfTkErrOk env ->
  let r := readAndPostData env w in
  value r = Returned tt /\
  events r =
    [ SerialPrintln "--- Reading UV Sensor Data ---";
      SerialPrintln "Reading from sensor...";
      SensorReadAll;
      SerialPrint "ERROR: Failed to read sensor data. Error code: ";
      SerialPrintln (String_int (fst (readAll_result env (reads w))));
      SerialPrintln "" ] /\
  count is_network (events r) = 0%nat /\
  polls (final r) = polls w /\
  posts (final r) = posts w.
Proof.
  intros Hfail.
  assert (E : negb (fst (readAll_result env (reads w)) =? ksfTkErrOk env) = true)
    by now apply negb_true_iff, Z.eqb_neq.
  unfold readAndPostData, Serial_println, Serial_print.
  repeat step. rewrite E. cbn iota.
  repeat step. rewrite run_call. unfold prepend.
  cbn [value final events app]. repeat step. repeat split.
Qed.

(** C9.  When [readAll] reports an error the cycle is over at once: it
    returns having printed its two opening lines and the error, and having
    made the one sensor call; no record text is built or printed, and
    there is no WiFi or HTTP call at all -- no status poll, no reconnection,
    no post. *)
Theorem read_failure_aborts (w : World) :
  fst (readAll_result env (reads w)) <> ksfTkErrOk env ->
  let r := readAndPostData env w in
  value r = Returned tt /\
  events r =
    [ SerialPrintln "--- Reading UV Sensor Data ---";
      SerialPrintln "Reading from sensor...";
      SensorReadAll;
      SerialPrint "ERROR: Failed to read sensor data. Error code: ";
      SerialPrintln (String_int (fst (readAll_result env (reads w))));
      SerialPrintln "" ] /\
  count is_network (events r) = 0%nat /\
  polls (final r) = polls w /\
  posts (final r) = posts w.
Proof. exact (readAndPostData_failure w). Qed.

(** *** The transmit stage *)

(** What one call of [sendDataToServer] does, in full. *)
Lemma sendDataToServer_run (jsonPayload : string) (w : World) :
  let code := POST_result env (posts w) jsonPayload in
  let r := sendDataToServer env jsonPayload w in
  value r = Returned tt /\
  events r =
    ([ SerialPrint "Posting to: "; SerialPrintln serverUrl;
       HttpBegin serverUrl;
       HttpAddHeader "Content-Type" "application/json";
       HttpPOST jsonPayload ] ++
     (if 0 <? code
      then [ SerialPrint "HTTP Response code: "; SerialPrintln (String_int code);
             HttpGetString;
             SerialPrint "Server response: ";
             SerialPrintln (getString_result env (S (posts w))) ]
      else [ SerialPrint "HTTP POST failed. Error: ";
             HttpErrorToString code;
             SerialPrintln (errorToString_result env code) ]) ++
     [ HttpEnd ])%list /\
  count is_post (events r) = 1%nat /\
  posts (final r) = S (posts w).
Proof.
  unfold sendDataToServer, Serial_println, Serial_print, http_begin,
    http_addHeader, http_errorToString, http_end.
  repeat step.
  destruct (0 <? POST_result env (posts w) jsonPayload);
    repeat step; rewrite run_call; unfold prepend;
    cbn [value final events app set_posts posts]; repeat step; repeat split.
Qed.

Arguments sendDataToServer : simpl never.
Arguments connectWiFi : simpl never.

Lemma elapse_le (w x : World) : clock w <= clock x -> clock w <= clock (elapse env x).
Proof. intros H. unfold elapse. cbn. lia. Qed.

Lemma polls_set_polls (n : nat) (x : World) : polls (set_polls n x) = n.
Proof. reflexivity. Qed.

Lemma posts_set_polls (n : nat) (x : World) : posts (set_polls n x) = posts x.
Proof. reflexivity. Qed.

Lemma transmit_stage_returns (up : bool) (json : string) :
  returns (transmit_stage env up json).
Proof. unfold transmit_stage, Serial_println. by_statements. Qed.

Lemma bind_transmit {B : Type} (st : Z) (json : string) (k : unit -> M B) (w : World) :
  bind (if st =? WL_CONNECTED env
        then sendDataToServer env json
        else (call env (SerialPrintln "WiFi not connected. Attempting to reconnect...");;
              connectWiFi env)) k w =
  bind (transmit_stage env (st =? WL_CONNECTED env) json) k w.
Proof. reflexivity. Qed.

Arguments float_is_zero : simpl never.

(** After a successful read the cycle prints the sample, warns if all
    three UV channels are zero, encodes the sample with the clock reading
    of that moment (world [wE]), prints the record, polls the WiFi status once and
    enters the transmit stage with that record. *)
Lemma readAndPostData_success (w : World) :
  fst (readAll_result env (reads w)) = ksfTkErrOk env ->
  let s := snd (readAll_result env (reads w)) in
  let up := status_result env (polls w) =? WL_CONNECTED env in
  exists (wE w' : World),
    let json := encode s (clock wE mod ULONG_MODULUS) in
    let tx := transmit_stage env up json w' in
    events (readAndPostData env w) =
      ([ SerialPrintln "--- Reading UV Sensor Data ---";
        SerialPrintln "Reading from sensor...";
        SensorReadAll ] ++
      reading_lines s ++
      (if all_zero s then warning_lines else []) ++
      [ SerialPrintln (nl ++ "JSON Payload:")%string; SerialPrintln json; WiFiStatus ] ++
      events tx ++ [ SerialPrintln "" ])%list /\
    clock w <= clock wE /\
    polls w' = S (polls w) /\
    posts w' = posts w /\
    posts (final (readAndPostData env w)) = posts (final tx).
Proof.
  intros Hok s up. subst s up.
  destruct (readAll_result env (reads w)) as [code [a b c t]] eqn:R.
  cbn [fst snd] in *.
  assert (E : negb (code =? ksfTkErrOk env) = false)
    by now apply negb_false_iff, Z.eqb_eq.
  unfold readAndPostData, Serial_println, Serial_print.
  repeat step. rewrite R. cbn [fst snd]. rewrite E. cbn iota.
  repeat step. cbn [regs set_regs reg_uva reg_uvb reg_uvc reg_temp].
  unfold all_zero. cbn [reg_uva reg_uvb reg_uvc reg_temp].
  match goal with
  | |- context [elapse env (set_regs ?r ?x)] => set (w0 := elapse env (set_regs r x))
  end.
  assert (H0 : clock w <= clock w0 /\ polls w0 = polls w /\ posts w0 = posts w).
  { subst w0. unfold elapse. cbn. repeat split; lia. }
  clearbody w0.
  destruct (float_is_zero a && float_is_zero b && float_is_zero c);
    repeat step; rewrite bind_transmit.
  all: destruct H0 as (Hc0 & Hp0 & Hq0); rewrite Hp0.
  all: match goal with
       | |- context [bind (transmit_stage env ?u ?j) ?k ?W] =>
           destruct (transmit_stage_returns u j W) as [[] Htx];
           rewrite (bind_Returned _ k W tt Htx)
       end.
  all: rewrite run_call; unfold prepend; cbn [events final value].
  all: match goal with
       | |- context [SerialPrintln (encode _ (clock ?W mod _))] => exists W
       end.
  all: match goal with
       | |- context [events (transmit_stage env _ _ ?W)] => exists W
       end.
  all: split;
    [ repeat rewrite <- app_assoc; cbn [app reading_lines warning_lines
        reg_uva reg_uvb reg_uvc reg_temp]; reflexivity | ].
  all: split; [ repeat apply elapse_le; exact Hc0 | ].
  all: rewrite ?elapse_polls, ?elapse_posts, ?polls_set_polls, ?posts_set_polls,
         ?elapse_posts; auto.
Qed.
Lemma transmit_stage_down_postless (json : string) :
  postless (transmit_stage env false json).
Proof. unfold transmit_stage, Serial_println. by_statements. Qed.

Lemma count_reading_lines (p : Event -> bool) (s : Readings) :
  (forall x, p (SerialPrint x) = false) -> (forall x, p (SerialPrintln x) = false) ->
  count p (reading_lines s) = 0%nat.
Proof. intros H1 H2. unfold count, reading_lines. cbn [filter]. now rewrite !H1, !H2. Qed.

Lemma count_warning (p : Event -> bool) (b : bool) :
  (forall x, p (SerialPrintln x) = false) ->
  count p (if b then warning_lines else []) = 0%nat.
Proof.
  intros H. destruct b; [|reflexivity].
  unfold count, warning_lines. cbn [filter]. now rewrite !H.
Qed.

(** How many posts a cycle makes after a successful read: one if the
    status poll finds the network connected, none otherwise. *)
Lemma readAndPostData_posts (w : World) :
  fst (readAll_result env (reads w)) = ksfTkErrOk env ->
  count is_post (events (readAndPostData env w)) =
    (if status_result env (polls w) =? WL_CONNECTED env then 1%nat else 0%nat) /\
  posts (final (readAndPostData env w)) =
    (if status_result env (polls w) =? WL_CONNECTED env
     then S (posts w) else posts w).
Proof.
  intros Hok.
  destruct (readAndPostData_success w Hok) as (wE & w' & Hev & _ & _ & Hposts & Hfin).
  cbv zeta in Hev, Hfin. rewrite Hev, Hfin. clear Hev Hfin.
  rewrite !count_app, count_reading_lines, count_warning by reflexivity.
  destruct (status_result env (polls w) =? WL_CONNECTED env).
  - unfold transmit_stage.
    destruct (sendDataToServer_run
                (encode (snd (readAll_result env (reads w))) (clock wE mod ULONG_MODULUS)) w')
      as (_ & _ & Hc & Hp).
    cbv zeta in Hc, Hp. rewrite Hc, Hp, Hposts. split; reflexivity.
  - destruct (transmit_stage_down_postless
                (encode (snd (readAll_result env (reads w))) (clock wE mod ULONG_MODULUS)) w')
      as (Hc & Hp).
    rewrite Hc, Hp, Hposts. split; reflexivity.
Qed.

Lemma readAndPostData_value (w : World) : value (readAndPostData env w) = Returned tt.
Proof. destruct (readAndPostData_returns w) as [[] H]. exact H. Qed.

(** No cycle posts twice. *)
Lemma readAndPostData_at_most_one_post (w : World) :
  (count is_post (events (readAndPostData env w)) <= 1)%nat.
Proof.
  destruct (Z.eq_dec (fst (readAll_result env (reads w))) (ksfTkErrOk env)) as [Hok|Hfail].
  - destruct (readAndPostData_posts w Hok) as [-> _].
    destruct (status_result env (polls w) =? WL_CONNECTED env); lia.
  - destruct (readAndPostData_failure w Hfail) as (_ & -> & _). cbn. lia.
Qed.

(** C2.  [sendDataToServer] posts the payload once, after announcing the
    URL and setting the JSON content type.  A response code above zero --
    an HTTP error status such as 404 or 500 included -- takes the branch
    that prints the code and the server's response; a code of zero or
    below takes the branch that prints the transport error.  Either way
    the connection is then closed and the call returns: there is one
    post and no second attempt, and no cycle contains more than one post. *)
Theorem sendDataToServer_branches (jsonPayload : string) (w : World) :
  let code := POST_result env (posts w) jsonPayload in
  let r := sendDataToServer env jsonPayload w in
  value r = Returned tt /\
  events r =
    ([ SerialPrint "Posting to: "; SerialPrintln serverUrl;
       HttpBegin serverUrl;
       HttpAddHeader "Content-Type" "application/json";
       HttpPOST jsonPayload ] ++
     (if 0 <? code
      then [ SerialPrint "HTTP Response code: "; SerialPrintln (String_int code);
             HttpGetString;
             SerialPrint "Server response: ";
             SerialPrintln (getString_result env (S (posts w))) ]
      else [ SerialPrint "HTTP POST failed. Error: ";
             HttpErrorToString code;
             SerialPrintln (errorToString_result env code) ]) ++
     [ HttpEnd ])%list /\
  count is_post (events r) = 1%nat /\
  posts (final r) = S (posts w) /\
  (count is_post (events (readAndPostData env w)) <= 1)%nat.
Proof.
  destruct (sendDataToServer_run jsonPayload w) as (Hv & He & Hc & Hp).
  cbv zeta in *. repeat split; try assumption.
  apply readAndPostData_at_most_one_post.
Qed.

(** *** Disconnected at the transmit stage *)

(** C10.  When the status poll of the transmit stage does not answer
    [WL_CONNECTED], the cycle issues no post -- whatever the network answers
    afterwards, so also when the reconnection it starts succeeds at once.
    The record it had encoded and printed is not sent; the cycle returns
    with the count of posts unchanged.  A connection that is back serves
    the cycles after it: a cycle whose own status poll answers
    [WL_CONNECTED] posts, once. *)
Theorem disconnected_cycle_never_posts (w : World) :
  fst (readAll_result env (reads w)) = ksfTkErrOk env ->
  status_result env (polls w) <> WL_CONNECTED env ->
  let r := readAndPostData env w in
  value r = Returned tt /\
  count is_post (events r) = 0%nat /\
  posts (final r) = posts w /\
  (exists json, In (SerialPrintln json) (events r) /\ json_object json <> []) /\
  (forall later : World,
     fst (readAll_result env (reads later)) = ksfTkErrOk env ->
     status_result env (polls later) = WL_CONNECTED env ->
     count is_post (events (readAndPostData env later)) = 1%nat).
Proof.
  intros Hok Hdown. cbv zeta.
  apply Z.eqb_neq in Hdown.
  destruct (readAndPostData_posts w Hok) as [Hc Hp]. rewrite Hdown in Hc, Hp.
  split; [apply readAndPostData_value|]. split; [exact Hc|]. split; [exact Hp|].
  split.
  - destruct (readAndPostData_success w Hok) as (wE & w' & Hev & _).
    cbv zeta in Hev. eexists. split.
    + rewrite Hev. apply in_or_app. right. apply in_or_app. right.
      apply in_or_app. right. apply in_or_app. left. right. left. reflexivity.
    + rewrite json_object_encode. discriminate.
  - intros later Hok' Hup. apply Z.eqb_eq in Hup.
    destruct (readAndPostData_posts later Hok') as [Hc' _]. now rewrite Hup in Hc'.
Qed.

(** *** All-zero readings *)

(** C4.  After a successful read the cycle does the same for every
    sample; the test for three zero UV channels decides only whether the
    four warning lines are printed.  Zero or not, the sample is encoded
    and the record printed, the status is polled once, and the transmit
    stage is entered with that record: if the poll answers [WL_CONNECTED]
    the record is posted, once. *)
Theorem zero_reading_still_transmitted (w : World) :
  fst (readAll_result env (reads w)) = ksfTkErrOk env ->
  let s := snd (readAll_result env (reads w)) in
  let up := status_result env (polls w) =? WL_CONNECTED env in
  let r := readAndPostData env w in
  exists (wE w' : World),
    let json := encode s (clock wE mod ULONG_MODULUS) in
    let tx := transmit_stage env up json w' in
    value r = Returned tt /\
    events r =
      ([ SerialPrintln "--- Reading UV Sensor Data ---";
         SerialPrintln "Reading from sensor...";
         SensorReadAll ] ++
       reading_lines s ++
       (if all_zero s then warning_lines else []) ++
       [ SerialPrintln (nl ++ "JSON Payload:")%string; SerialPrintln json; WiFiStatus ] ++
       events tx ++ [ SerialPrintln "" ])%list /\
    (if up
     then In (HttpPOST json) (events tx) /\ count is_post (events r) = 1%nat
     else count is_post (events r) = 0%nat).
Proof.
  intros Hok. cbv zeta.
  destruct (readAndPostData_success w Hok) as (wE & w' & Hev & _).
  cbv zeta in Hev. exists wE, w'.
  split; [apply readAndPostData_value|]. split; [exact Hev|].
  destruct (readAndPostData_posts w Hok) as [Hc _].
  destruct (status_result env (polls w) =? WL_CONNECTED env); [|exact Hc].
  split; [|exact Hc].
  unfold transmit_stage.
  destruct (sendDataToServer_run
              (encode (snd (readAll_result env (reads w))) (clock wE mod ULONG_MODULUS)) w')
    as (_ & He & _).
  cbv zeta in He. rewrite He. cbn [app]. do 4 right. left. reflexivity.
Qed.

(** *** Reconnection that fails *)

(** While no poll answers [WL_CONNECTED], the wait of [connectWiFi()] goes
    through all its rounds -- poll, half a second of delay, a dot -- and
    ends on the poll at which [attempts] has reached its bound. *)
Lemma await_connection_all_fail (budget : nat) (w : World) :
  (forall k, (k <= budget)%nat ->
             status_result env (polls w + k)%nat <> WL_CONNECTED env) ->
  value (await_connection env budget w) = Returned tt /\
  events (await_connection env budget w) =
    (List.concat (repeat waiting_round budget) ++ [WiFiStatus])%list /\
  polls (final (await_connection env budget w)) = (polls w + S budget)%nat.
Proof.
  revert w. induction budget as [|b IH]; intros w Hdown.
  - cbn [await_connection]. rewrite bind_status.
    assert (E : (status_result env (polls w) =? WL_CONNECTED env) = false).
    { apply Z.eqb_neq. rewrite <- (Nat.add_0_r (polls w)). apply Hdown. lia. }
    rewrite E. cbn [negb]. unfold ret, prepend. cbn [value final events repeat List.concat app].
    rewrite elapse_polls, polls_set_polls. repeat split. lia.
  - cbn [await_connection]. rewrite bind_status.
    assert (E : (status_result env (polls w) =? WL_CONNECTED env) = false).
    { apply Z.eqb_neq. rewrite <- (Nat.add_0_r (polls w)). apply Hdown. lia. }
    rewrite E. cbn [negb]. unfold Serial_print.
    rewrite bind_delay, bind_call. cbn beta. rewrite !prepend_prepend.
    match goal with
    | |- context [await_connection env b ?W] => set (w1 := W)
    end.
    assert (Hp : polls w1 = S (polls w)) by reflexivity.
    clearbody w1.
    destruct (IH w1) as (Hv & He & Hq).
    { intros k Hk. rewrite Hp.
      replace (S (polls w) + k)%nat with (polls w + S k)%nat by lia.
      apply Hdown. lia. }
    unfold prepend. cbn [value final events].
    rewrite Hv, He, Hq, Hp. cbn [repeat List.concat]. unfold waiting_round at 2.
    cbn [app]. repeat split. lia.
Qed.

Lemma connectWiFi_all_fail (w : World) :
  (forall k, (k <= 31)%nat ->
             status_result env (polls w + k)%nat <> WL_CONNECTED env) ->
  events (connectWiFi env w) =
    ([ SerialPrint "Connecting to WiFi"; WiFiBegin ssid password ] ++
     List.concat (repeat waiting_round 30) ++
     [ WiFiStatus; WiFiStatus; SerialPrintln (nl ++ "WiFi connection failed!")%string ])%list.
Proof.
  intros Hdown.
  unfold connectWiFi, Serial_print, Serial_println, WiFi_begin.
  rewrite !bind_call. cbn beta. rewrite prepend_prepend.
  match goal with
  | |- context [bind (await_connection env 30) ?k ?W] =>
      destruct (await_connection_all_fail 30 W) as (Hv & He & Hq);
      [ | rewrite (bind_Returned _ k W tt Hv) ]
  end.
  { intros k Hk. rewrite !elapse_polls. apply Hdown. lia. }
  rewrite bind_status, Hq, !elapse_polls.
  assert (E : (status_result env (polls w + 31) =? WL_CONNECTED env) = false).
  { apply Z.eqb_neq. apply Hdown. lia. }
  rewrite E, run_call, He. unfold prepend. cbn [events].
  rewrite <- !app_assoc. reflexivity.
Qed.

(** C3.  A cycle that reads a sample and then finds the network down
    tries to reconnect: one [WiFi.begin], then at most 30 rounds of polling
    with a delay of 500 ms each.  If no poll of the cycle answers
    [WL_CONNECTED] -- the one of the transmit stage, the 31 of the wait and
    the final one -- all 30 rounds are used, "WiFi connection failed!" is
    printed, nothing is posted, and the cycle returns to [loop()]. *)
Theorem failed_reconnection_skips_post (w : World) :
  fst (readAll_result env (reads w)) = ksfTkErrOk env ->
  (forall k, (k <= 32)%nat ->
             status_result env (polls w + k)%nat <> WL_CONNECTED env) ->
  let r := readAndPostData env w in
  value r = Returned tt /\
  count is_wifi_begin (events r) = 1%nat /\
  count (is_delay 500) (events r) = 30%nat /\
  count is_post (events r) = 0%nat /\
  posts (final r) = posts w /\
  exists before,
    events r =
      (before ++
       [ SerialPrintln "WiFi not connected. Attempting to reconnect...";
         SerialPrint "Connecting to WiFi"; WiFiBegin ssid password ] ++
       List.concat (repeat waiting_round 30) ++
       [ WiFiStatus; WiFiStatus;
         SerialPrintln (nl ++ "WiFi connection failed!")%string;
         SerialPrintln "" ])%list.
Proof.
  intros Hok Hdown. cbv zeta.
  assert (E : (status_result env (polls w) =? WL_CONNECTED env) = false).
  { apply Z.eqb_neq. rewrite <- (Nat.add_0_r (polls w)). apply Hdown. lia. }
  destruct (readAndPostData_posts w Hok) as [Hc Hp]. rewrite E in Hc, Hp.
  destruct (readAndPostData_success w Hok) as (wE & w' & Hev & _ & Hpolls & _).
  cbv zeta in Hev. rewrite E in Hev.
  unfold transmit_stage, Serial_println in Hev.
  rewrite bind_call in Hev. unfold prepend in Hev. cbn [events] in Hev.
  rewrite connectWiFi_all_fail in Hev.
  2:{ intros k Hk. rewrite elapse_polls, Hpolls.
      replace (S (polls w) + k)%nat with (polls w + S k)%nat by lia.
      apply Hdown. lia. }
  split; [apply readAndPostData_value|].
  split; [|split; [|split; [exact Hc|split; [exact Hp|]]]].
  - rewrite Hev, !count_app, count_reading_lines, count_warning by reflexivity.
    reflexivity.
  - rewrite Hev, !count_app, count_reading_lines, count_warning by reflexivity.
    reflexivity.
  - exists ([ SerialPrintln "--- Reading UV Sensor Data ---";
              SerialPrintln "Reading from sensor..."; SensorReadAll ] ++
            reading_lines (snd (readAll_result env (reads w))) ++
            (if all_zero (snd (readAll_result env (reads w))) then warning_lines else []) ++
            [ SerialPrintln (nl ++ "JSON Payload:")%string;
              SerialPrintln (encode (snd (readAll_result env (reads w)))
                                    (clock wE mod ULONG_MODULUS));
              WiFiStatus ])%list.
    rewrite Hev. rewrite <- !app_assoc. cbn [app]. reflexivity.
Qed.

(* ================================================================== *)
(** ** The schedule *)

Lemma ULONG_MODULUS_value : ULONG_MODULUS = 4294967296.
Proof. reflexivity. Qed.

(** The test of [loop()] compares the time since the last tick, modulo
    the width of [unsigned long]. *)
Lemma cycle_due_elapsed (w : World) :
  cycle_due w = (POST_INTERVAL <=? (clock w - lastPostTime w) mod ULONG_MODULUS).
Proof. unfold cycle_due, usub. now rewrite Zminus_mod_idemp_l. Qed.

(** An iteration of [loop()] in which a cycle is due ... *)
Lemma loop_due (w : World) :
  cycle_due w = true ->
  loop env w =
  mkResult (Returned tt)
    (set_clock (clock (final (readAndPostData env w)) + 100)
       (set_lastPostTime (clock (final (readAndPostData env w)) mod ULONG_MODULUS)
          (final (readAndPostData env w))))
    (events (readAndPostData env w) ++ [Delay 100]).
Proof.
  intros Hdue. unfold loop.
  rewrite bind_millis, bind_get_lastPostTime.
  change (POST_INTERVAL <=? usub (clock w mod ULONG_MODULUS) (lastPostTime w))
    with (cycle_due w).
  rewrite Hdue, !bind_bind.
  rewrite (bind_Returned _ _ _ tt (readAndPostData_value w)). cbn beta.
  rewrite !bind_bind, bind_millis, bind_put_lastPostTime.
  unfold delay, prepend. cbn [value final events]. reflexivity.
Qed.

(** ... and one in which none is. *)
Lemma loop_idle (w : World) :
  cycle_due w = false ->
  loop env w = mkResult (Returned tt) (set_clock (clock w + 100) w) [Delay 100].
Proof.
  intros Hidle. unfold loop.
  rewrite bind_millis, bind_get_lastPostTime.
  change (POST_INTERVAL <=? usub (clock w mod ULONG_MODULUS) (lastPostTime w))
    with (cycle_due w).
  rewrite Hidle, bind_ret. reflexivity.
Qed.

Lemma loop_value (w : World) : value (loop env w) = Returned tt.
Proof.
  destruct (cycle_due w) eqn:E; [rewrite loop_due | rewrite loop_idle]; auto.
Qed.

Lemma step_looping (w : World) (h : list Event) :
  step env (mkMachine Looping w h) =
  mkMachine Looping (final (loop env w)) (h ++ events (loop env w)).
Proof. unfold step, enter. cbn [phase world history]. now rewrite loop_value. Qed.

(** C5.  In an iteration of [loop()] that runs a cycle, [lastPostTime] is
    set from the clock as it reads when [readAndPostData()] has come back
    -- whichever way it came back: the sensor read may have failed, the
    post may have failed or been skipped; nothing about the environment is
    assumed.  That reading is not earlier than the start of the cycle, and
    right after the iteration no cycle is due. *)
Theorem schedule_advances_every_cycle (w : World) :
  cycle_due w = true ->
  let done := final (readAndPostData env w) in
  let r := loop env w in
  value r = Returned tt /\
  lastPostTime (final r) = clock done mod ULONG_MODULUS /\
  clock w <= clock done /\
  clock (final r) = clock done + 100 /\
  cycle_due (final r) = false.
Proof.
  intros Hdue. cbv zeta. rewrite (loop_due w Hdue). cbn [value final].
  split; [reflexivity|]. split; [reflexivity|].
  split; [apply readAndPostData_steady|]. split; [reflexivity|].
  rewrite cycle_due_elapsed. cbn [clock lastPostTime set_clock set_lastPostTime].
  rewrite Zminus_mod_idemp_r.
  replace (clock (final (readAndPostData env w)) + 100 -
           clock (final (readAndPostData env w))) with 100 by lia.
  reflexivity.
Qed.

Lemma separated_cons (gap a : Z) (l : list Z) :
  (forall t, In t l -> a + gap <= t) -> separated gap l -> separated gap (a :: l).
Proof.
  intros Hall Hsep. destruct l as [|b l]; [exact I|].
  split; [apply Hall; now left | exact Hsep].
Qed.

(** Every cycle a looping machine starts lies a full interval after any
    instant [T] that [lastPostTime] stands for, and the starts are a full
    interval apart. *)
Lemma cycle_starts_spaced (n : nat) :
  forall m : Machine,
    separated POST_INTERVAL (cycle_starts env n m) /\
    (phase m = Looping ->
     forall T, T <= clock (world m) ->
               lastPostTime (world m) = T mod ULONG_MODULUS ->
               forall t, In t (cycle_starts env n m) -> T + POST_INTERVAL <= t).
Proof.
  induction n as [|n IH]; intros m; [split; [exact I | intros _ T _ _ t []]|].
  destruct m as [[| |] w h]; cbn [cycle_starts phase world].
  - split; [apply IH | discriminate].
  - rewrite step_looping.
    destruct (cycle_due w) eqn:Hdue.
    + rewrite (loop_due w Hdue). cbn [final events].
      set (done := final (readAndPostData env w)).
      set (m' := mkMachine Looping _ _).
      destruct (IH m') as [Hsep Hlater].
      assert (Hclock : clock w <= clock done) by apply readAndPostData_steady.
      assert (Hrest : forall t, In t (cycle_starts env n m') ->
                                clock done + POST_INTERVAL <= t).
      { apply (Hlater eq_refl (clock done)); subst m'; cbn; [lia | reflexivity]. }
      split.
      * apply separated_cons; [|exact Hsep].
        intros t Ht. specialize (Hrest t Ht). lia.
      * intros _ T HT Hlast t [<- | Ht].
        -- rewrite cycle_due_elapsed, Hlast, Zminus_mod_idemp_r in Hdue.
           apply Z.leb_le in Hdue.
           assert ((clock w - T) mod ULONG_MODULUS <= clock w - T).
           { apply Z.mod_le; [lia | rewrite ULONG_MODULUS_value; lia]. }
           lia.
        -- specialize (Hrest t Ht). lia.
    + rewrite (loop_idle w Hdue). cbn [final events].
      set (m' := mkMachine Looping _ _).
      destruct (IH m') as [Hsep Hlater].
      split; [exact Hsep|].
      intros _ T HT Hlast. apply (Hlater eq_refl T); subst m'; cbn; [lia | exact Hlast].
  - split; [apply IH | discriminate].
Qed.

(** While no cycle is due, each iteration brings the test of [loop()]
    100 ms closer to the interval: it takes at most [j] iterations when
    at most [100 * j] ms are missing. *)
Lemma cycle_becomes_due (j : nat) :
  forall (w : World) (h : list Event),
    POST_INTERVAL - (clock w - lastPostTime w) mod ULONG_MODULUS <= 100 * Z.of_nat j ->
    exists k, (k <= j)%nat /\
      phase (run env k (mkMachine Looping w h)) = Looping /\
      cycle_due (world (run env k (mkMachine Looping w h))) = true.
Proof.
  induction j as [|j IH]; intros w h Hmiss.
  - exists 0%nat. cbn [run phase world]. rewrite cycle_due_elapsed.
    repeat split; [lia|]. apply Z.leb_le. lia.
  - destruct (cycle_due w) eqn:Hdue.
    + exists 0%nat. cbn [run phase world]. repeat split; [lia | exact Hdue].
    + destruct (IH (set_clock (clock w + 100) w) (h ++ [Delay 100])%list)
        as (k & Hk & Hphase & Hk_due).
      * rewrite cycle_due_elapsed in Hdue. apply Z.leb_gt in Hdue.
        cbn [clock lastPostTime set_clock].
        replace (clock w + 100 - lastPostTime w)
          with ((clock w - lastPostTime w) + 100) by lia.
        rewrite <- Zplus_mod_idemp_l.
        assert (0 <= (clock w - lastPostTime w) mod ULONG_MODULUS < ULONG_MODULUS).
        { apply Z.mod_pos_bound. rewrite ULONG_MODULUS_value. lia. }
        rewrite Z.mod_small; [lia|].
        rewrite ULONG_MODULUS_value in *. unfold POST_INTERVAL in *. lia.
      * exists (S k). cbn [run]. rewrite step_looping, (loop_idle w Hdue).
        cbn [final events]. repeat split; [lia | exact Hphase | exact Hk_due].
Qed.

(** C7.  (1) An iteration of [loop()] runs a cycle exactly when the time
    since [lastPostTime], modulo the width of [unsigned long], is at least
    [POST_INTERVAL]; for a last tick [T] less than 2^32 ms ago, that is
    when [now - T >= POST_INTERVAL].  (2) In any run of the machine the
    cycle starts are at least [POST_INTERVAL] apart, so a fortiori at
    least the interval minus one iteration's latency.  (3) From any world
    a looping machine reaches an iteration in which a cycle is due after
    at most 600 iterations of 100 ms. *)
Theorem scheduling_invariant :
  (forall w : World,
     events (loop env w) =
       ((if cycle_due w then events (readAndPostData env w) else []) ++ [Delay 100])%list /\
     cycle_due w = (POST_INTERVAL <=? (clock w - lastPostTime w) mod ULONG_MODULUS) /\
     forall T, lastPostTime w = T mod ULONG_MODULUS ->
               T <= clock w < T + ULONG_MODULUS ->
               (cycle_due w = true <-> POST_INTERVAL <= clock w - T)) /\
  (forall (n : nat) (m : Machine), separated POST_INTERVAL (cycle_starts env n m)) /\
  (forall (w : World) (h : list Event),
     exists k, (k <= 600)%nat /\
       phase (run env k (mkMachine Looping w h)) = Looping /\
       cycle_due (world (run env k (mkMachine Looping w h))) = true).
Proof.
  split; [|split].
  - intros w. split; [|split].
    + destruct (cycle_due w) eqn:Hdue;
        [rewrite (loop_due w Hdue) | rewrite (loop_idle w Hdue)]; reflexivity.
    + apply cycle_due_elapsed.
    + intros T Hlast HT. rewrite cycle_due_elapsed, Hlast, Zminus_mod_idemp_r.
      rewrite Z.mod_small by lia. apply Z.leb_le.
  - intros n m. apply cycle_starts_spaced.
  - intros w h. apply (cycle_becomes_due 600).
    assert (0 <= (clock w - lastPostTime w) mod ULONG_MODULUS).
    { apply Z.mod_pos_bound. rewrite ULONG_MODULUS_value. lia. }
    unfold POST_INTERVAL. lia.
Qed.

(* ================================================================== *)
(** ** Start-up *)

Lemma bind_halt {A B : Type} (k : A -> M B) (w : World) :
  bind halt_forever k w = mkResult Halted w [].
Proof. reflexivity. Qed.

(** With no sensor on the bus, [setup()] gets as far as its error report
    and is then caught in the halt loop. *)
Lemma setup_absent_sensor (w : World) :
  begin_result env = false ->
  value (setup env w) = Halted /\ events (setup env w) = absent_sensor_lines.
Proof.
  intros Habsent.
  unfold setup, uvSensor_begin, Serial_begin, Serial_println, Wire_begin.
  repeat step. rewrite Habsent. cbn [negb].
  repeat step. rewrite bind_halt. unfold prepend. cbn [value events].
  split; reflexivity.
Qed.

Lemma step_stuck (w : World) (h : list Event) :
  step env (mkMachine Stuck w h) =
  mkMachine Stuck (set_clock (clock w + 1000) w) (h ++ [Delay 1000]).
Proof. reflexivity. Qed.

(** A stuck machine stays stuck, one [delay(1000)] per step. *)
Lemma run_stuck (n : nat) :
  forall (w : World) (h : list Event),
    phase (run env n (mkMachine Stuck w h)) = Stuck /\
    history (run env n (mkMachine Stuck w h)) = (h ++ repeat (Delay 1000) n)%list.
Proof.
  induction n as [|n IH]; intros w h; cbn [run].
  - cbn [phase history repeat]. now rewrite app_nil_r.
  - rewrite step_stuck.
    destruct (IH (set_clock (clock w + 1000) w) (h ++ [Delay 1000])%list) as [Hp Hh].
    rewrite Hp, Hh, <- app_assoc. split; reflexivity.
Qed.

(** C6.  If [uvSensor.begin()] reports no sensor, the machine never gets
    to [loop()]: after any number of steps it is still booting or stuck,
    it has made no WiFi or HTTP call and no sensor read, and from the first
    step on its history is [setup()]'s report of the missing sensor
    followed by nothing but delays of 1000 ms, one more with every step. *)
Theorem absent_sensor_halts (w : World) (n : nat) :
  begin_result env = false ->
  let m := run env n (mkMachine Booting w []) in
  phase m <> Looping /\
  count is_network (history m) = 0%nat /\
  count is_read (history m) = 0%nat /\
  history (run env (S n) (mkMachine Booting w [])) =
    (absent_sensor_lines ++ repeat (Delay 1000) n)%list /\
  phase (run env (S n) (mkMachine Booting w [])) = Stuck.
Proof.
  intros Habsent. cbv zeta.
  destruct (setup_absent_sensor w Habsent) as [Hv He].
  assert (Hboot : step env (mkMachine Booting w []) =
                  mkMachine Stuck (final (setup env w)) absent_sensor_lines).
  { unfold step, enter. cbn [phase world history]. now rewrite Hv, He. }
  assert (Hquiet : forall k p, p (Delay 1000) = false ->
            count p (absent_sensor_lines ++ repeat (Delay 1000) k) =
            count p absent_sensor_lines).
  { intros k p Hp. rewrite count_app.
    assert (count p (repeat (Delay 1000) k) = 0%nat) as ->; [|lia].
    induction k as [|k IHk]; [reflexivity|].
    unfold count in *. cbn [repeat filter]. now rewrite Hp. }
  assert (Hlater : forall k,
            phase (run env (S k) (mkMachine Booting w [])) = Stuck /\
            history (run env (S k) (mkMachine Booting w [])) =
              (absent_sensor_lines ++ repeat (Delay 1000) k)%list).
  { intros k. cbn [run]. rewrite Hboot. apply run_stuck. }
  split; [|split; [|split; [|split]]].
  - destruct n as [|n]; [cbn; discriminate|].
    destruct (Hlater n) as [-> _]. discriminate.
  - destruct n as [|n]; [reflexivity|].
    destruct (Hlater n) as [_ ->]. now rewrite Hquiet.
  - destruct n as [|n]; [reflexivity|].
    destruct (Hlater n) as [_ ->]. now rewrite Hquiet.
  - apply Hlater.
  - apply Hlater.
Qed.

End Cycle.

(* ================================================================== *)
(** ** The theorems at work *)

(** A world one interval after boot, with nothing read or polled yet. *)
Lemma read_failure_aborts_witness :
  fst (readAll_result failing_reads (reads midday)) <> ksfTkErrOk failing_reads /\
  events (readAndPostData failing_reads midday) =
    [ SerialPrintln "--- Reading UV Sensor Data ---";
      SerialPrintln "Reading from sensor...";
      SensorReadAll;
      SerialPrint "ERROR: Failed to read sensor data. Error code: ";
      SerialPrintln "-1";
      SerialPrintln "" ].
Proof.
  assert (H : fst (readAll_result failing_reads (reads midday)) <> ksfTkErrOk failing_reads)
    by discriminate.
  split; [exact H|].
  exact (proj1 (proj2 (read_failure_aborts failing_reads midday H))).
Defined.

(** The access point is back at the first poll of the reconnection, and
    still the cycle does not post. *)
Lemma disconnected_cycle_never_posts_witness :
  status_result wifi_returns (polls power_on) <> WL_CONNECTED wifi_returns /\
  status_result wifi_returns (S (polls power_on)) = WL_CONNECTED wifi_returns /\
  count is_post (events (readAndPostData wifi_returns power_on)) = 0%nat.
Proof.
  assert (H : status_result wifi_returns (polls power_on) <> WL_CONNECTED wifi_returns)
    by discriminate.
  split; [exact H|]. split; [reflexivity|].
  exact (proj1 (proj2 (disconnected_cycle_never_posts wifi_returns power_on eq_refl H))).
Defined.

(** Three zero channels in a dark room: warned about, encoded, posted. *)
Lemma zero_reading_still_transmitted_witness :
  all_zero (snd (readAll_result dark_room (reads midday))) = true /\
  count is_post (events (readAndPostData dark_room midday)) = 1%nat.
Proof.
  split; [reflexivity|].
  destruct (zero_reading_still_transmitted dark_room midday eq_refl)
    as (wE & w' & _ & _ & Hpost).
  exact (proj2 Hpost).
Defined.

(** No access point in reach: thirty rounds, no post. *)
Lemma failed_reconnection_skips_post_witness :
  (forall k, (k <= 32)%nat ->
     status_result no_wifi (polls midday + k)%nat <> WL_CONNECTED no_wifi) /\
  count (is_delay 500) (events (readAndPostData no_wifi midday)) = 30%nat /\
  count is_post (events (readAndPostData no_wifi midday)) = 0%nat.
Proof.
  assert (H : forall k, (k <= 32)%nat ->
            status_result no_wifi (polls midday + k)%nat <> WL_CONNECTED no_wifi)
    by (intros k _; discriminate).
  split; [exact H|].
  destruct (failed_reconnection_skips_post no_wifi midday eq_refl H)
    as (_ & _ & Hdelay & Hpost & _).
  split; [exact Hdelay | exact Hpost].
Defined.

(** The schedule moves on although every read fails. *)
Lemma schedule_advances_every_cycle_witness :
  cycle_due midday = true /\
  lastPostTime (final (loop failing_reads midday)) =
    clock (final (readAndPostData failing_reads midday)) mod ULONG_MODULUS.
Proof.
  split; [reflexivity|].
  exact (proj1 (proj2 (schedule_advances_every_cycle failing_reads midday eq_refl))).
Defined.

Lemma absent_sensor_halts_witness :
  begin_result no_sensor = false /\
  phase (run no_sensor 5 boot) <> Looping /\
  count is_network (history (run no_sensor 5 boot)) = 0%nat.
Proof.
  split; [reflexivity|].
  destruct (absent_sensor_halts no_sensor power_on 5 eq_refl) as (Hp & Hn & _).
  split; [exact Hp | exact Hn].
Defined.

Lemma scheduling_invariant_witness :
  (cycle_due midday = true <-> POST_INTERVAL <= clock midday - 60000) /\
  separated POST_INTERVAL (cycle_starts bench 2000 boot).
Proof.
  destruct (scheduling_invariant bench) as (Hfire & Hsep & _).
  split.
  - apply (proj2 (proj2 (Hfire midday)) 60000); [reflexivity|].
    unfold midday. cbn [clock]. rewrite ULONG_MODULUS_value. lia.
  - apply Hsep.
Defined.

(** The formatter, run. *)
Example String_float_1_5 : String_float f_1_5 2 = "1.50".
Proof. reflexivity. Qed.

Example String_float_10000 : String_float f_10000 2 = "10000.00".
Proof. reflexivity. Qed.

Example String_float_0_125 : String_float f_0_125 2 = "0.13".
Proof. reflexivity. Qed.

Example String_float_m0_004 : String_float f_m0_004 2 = "-0.00".
Proof. reflexivity. Qed.

Example String_float_pi : String_float f_pi 4 = "3.1416".
Proof. reflexivity. Qed.

Example String_float_zero : String_float f_zero 2 = "0.00".
Proof. reflexivity. Qed.

(** The model, run. *)
Example bench_record :
  value (createJsonPayload f_1_5 f_0_125 f_m0_004 f_10000 midday) =
  Returned ("{" ++ quoted "timestamp" ++ ":123456," ++ quoted "uva" ++ ":1.50," ++
            quoted "uvb" ++ ":0.13," ++ quoted "uvc" ++ ":-0.00," ++
            quoted "temperature" ++ ":10000.00," ++
            quoted "device" ++ ":" ++ quoted "ESP32-C6" ++ "," ++
            quoted "sensor" ++ ":" ++ quoted "AS7331" ++ "}").
Proof. reflexivity. Qed.

Example bench_cycle_starts : cycle_starts bench 1300 boot = [60052; 120114].
Proof. vm_compute. reflexivity. Qed.

Example server_404_takes_success_branch :
  events (sendDataToServer server_404 "{}" midday) =
  [ SerialPrint "Posting to: "; SerialPrintln serverUrl; HttpBegin serverUrl;
    HttpAddHeader "Content-Type" "application/json"; HttpPOST "{}";
    SerialPrint "HTTP Response code: "; SerialPrintln "404"; HttpGetString;
    SerialPrint "Server response: "; SerialPrintln "OK"; HttpEnd ].
Proof. vm_compute. reflexivity. Qed.

Example unreachable_server_takes_failure_branch :
  events (sendDataToServer server_unreachable "{}" midday) =
  [ SerialPrint "Posting to: "; SerialPrintln serverUrl; HttpBegin serverUrl;
    HttpAddHeader "Content-Type" "application/json"; HttpPOST "{}";
    SerialPrint "HTTP POST failed. Error: "; HttpErrorToString (-1);
    SerialPrintln "connection refused"; HttpEnd ].
Proof. vm_compute. reflexivity. Qed.

(* ================================================================== *)
(** * Further properties of the sketch *)

Section Startup.

Context (env : Env).

Lemma silent_ret (p : Event -> bool) {A : Type} (a : A) : silent p (ret a).
Proof. intros w. reflexivity. Qed.

Lemma silent_halt (p : Event -> bool) {A : Type} : silent p (@halt_forever A).
Proof. intros w. reflexivity. Qed.

Lemma silent_bind (p : Event -> bool) {A B : Type} (m : M A) (k : A -> M B) :
  silent p m -> (forall a, silent p (k a)) -> silent p (bind m k).
Proof.
  intros Hm Hk w. unfold bind.
  destruct (value (m w)) as [a|]; cbn [events prepend]; [|apply Hm].
  now rewrite count_app, Hm, Hk.
Qed.

Lemma silent_call (p : Event -> bool) (e : Event) : p e = false -> silent p (call env e).
Proof. intros H w. unfold count. cbn. now rewrite H. Qed.

Lemma silent_delay (p : Event -> bool) (ms : Z) :
  p (Delay ms) = false -> silent p (delay ms).
Proof. intros H w. unfold count. cbn. now rewrite H. Qed.

End Startup.

#[local] Hint Resolve silent_ret silent_halt : sketch.

(** Goes through a sketch function statement by statement, for [silent]. *)
Ltac quietly :=
  repeat first
    [ solve [auto with sketch]
    | apply silent_bind; [|intros ?]
    | apply silent_call; reflexivity
    | apply silent_delay; reflexivity
    | match goal with
      | |- silent _ (if ?b then _ else _) => destruct b
      | |- silent _ (match ?n with O => _ | S _ => _ end) => destruct n
      end
    | solve [intros ?w; reflexivity] ].

Section More.

Context (env : Env).

(** *** Calls that are never made outside their place *)

Lemma await_connection_no_read (budget : nat) : silent is_read (await_connection env budget).
Proof. induction budget as [|b IH]; cbn [await_connection]; unfold_calls; quietly. Qed.

Lemma await_connection_no_begin (budget : nat) :
  silent is_wifi_begin (await_connection env budget).
Proof. induction budget as [|b IH]; cbn [await_connection]; unfold_calls; quietly. Qed.

Lemma await_connection_no_post (budget : nat) : silent is_post (await_connection env budget).
Proof. induction budget as [|b IH]; cbn [await_connection]; unfold_calls; quietly. Qed.

#[local] Hint Resolve await_connection_no_read await_connection_no_begin
  await_connection_no_post : sketch.

Lemma connectWiFi_no_read : silent is_read (connectWiFi env).
Proof. unfold connectWiFi. unfold_calls. quietly. Qed.

Lemma connectWiFi_no_post : silent is_post (connectWiFi env).
Proof. unfold connectWiFi. unfold_calls. quietly. Qed.

Lemma sendDataToServer_no_read (json : string) : silent is_read (sendDataToServer env json).
Proof. unfold sendDataToServer. unfold_calls. quietly. Qed.

#[local] Hint Resolve connectWiFi_no_read connectWiFi_no_post
  sendDataToServer_no_read : sketch.

Lemma transmit_stage_no_read (up : bool) (json : string) :
  silent is_read (transmit_stage env up json).
Proof. unfold transmit_stage. unfold_calls. quietly. Qed.

Lemma configureSensor_no_read : silent is_read (configureSensor env).
Proof. unfold configureSensor. unfold_calls. quietly. Qed.

Lemma configureSensor_no_post : silent is_post (configureSensor env).
Proof. unfold configureSensor. unfold_calls. quietly. Qed.

Lemma configureSensor_steady : steady (configureSensor env).
Proof. unfold configureSensor. unfold_calls. by_statements. Qed.

#[local] Hint Resolve configureSensor_no_read configureSensor_no_post
  configureSensor_steady : sketch.

(** [setup()] reads no sample and posts nothing ... *)
Lemma setup_no_read : silent is_read (setup env).
Proof. unfold setup. unfold_calls. quietly. Qed.

Lemma setup_no_post : silent is_post (setup env).
Proof. unfold setup. unfold_calls. quietly. Qed.

(** ... and, halting or not, leaves [lastPostTime] at its initial value. *)
Lemma setup_steady : steady (setup env).
Proof.
  pose proof (connectWiFi_steady env).
  unfold setup. unfold_calls. by_statements.
Qed.

(** *** Start-up with a sensor on the bus *)

Lemma le_elapse (a : Z) (x : World) : a <= clock x -> a <= clock (elapse env x).
Proof. intros H. unfold elapse. cbn. lia. Qed.

Lemma le_delay (a ms : Z) (x : World) :
  a - ms <= clock x -> a <= clock (set_clock (clock x + ms) x).
Proof. intros H. cbn. lia. Qed.

(** [setup()] up to the answer of [prepareMeasurement]. *)
Ltac run_setup_to_prepare Hbegin :=
  unfold setup, configureSensor, uvSensor_begin, uvSensor_getGainValue,
    uvSensor_getConversionTimeMillis, uvSensor_prepareMeasurement,
    Serial_begin, Serial_println, Serial_print, Wire_begin;
  repeat step; rewrite Hbegin; cbn [negb]; repeat step.

(** With a sensor that is found but rejects the continuous mode,
    [setup()] is caught in the halt loop of [configureSensor()]. *)
Lemma setup_config_rejected (w : World) :
  begin_result env = true -> prepare_result env = false ->
  value (setup env w) = Halted /\
  events (setup env w) =
    (sensor_found_lines ++ prepare_lines env ++
     [ SerialPrintln "ERROR: Failed to start continuous measurement mode" ])%list.
Proof.
  intros Hbegin Hprepare. run_setup_to_prepare Hbegin.
  rewrite Hprepare. cbn [Bool.eqb]. repeat step.
  rewrite bind_halt. unfold prepend. cbn [value events].
  split; reflexivity.
Qed.

(** With a sensor that is found and accepts, [setup()] goes on to
    [connectWiFi()] and returns after it. *)
Lemma setup_completes (w : World) :
  begin_result env = true -> prepare_result env = true ->
  exists w' : World,
    clock w + 2000 <= clock w' /\
    value (setup env w) = Returned tt /\
    events (setup env w) =
      (sensor_found_lines ++ prepare_lines env ++ running_lines ++
       events (connectWiFi env w') ++
       [ SerialPrintln ("Setup complete. Starting measurements..." ++ nl)%string ])%list /\
    clock w' <= clock (final (setup env w)).
Proof.
  intros Hbegin Hprepare. run_setup_to_prepare Hbegin.
  rewrite Hprepare. cbn [Bool.eqb]. repeat step.
  match goal with
  | |- context [bind (connectWiFi env) ?k ?W] =>
      exists W; destruct (connectWiFi_returns env W) as [[] Hv];
      rewrite (bind_Returned _ k W tt Hv)
  end.
  rewrite run_call. unfold prepend. cbn [value final events].
  split; [repeat first [apply le_elapse | apply le_delay]; lia|].
  split; [reflexivity|].
  split; [rewrite <- !app_assoc; reflexivity|].
  apply le_elapse. apply connectWiFi_steady.
Qed.

(** *** Connecting *)

Lemma count_rounds (p : Event -> bool) (k : nat) :
  count p (List.concat (repeat waiting_round k)) = (k * count p waiting_round)%nat.
Proof.
  induction k as [|k IH]; [reflexivity|].
  cbn [repeat List.concat]. rewrite count_app, IH. lia.
Qed.

(** The wait of [connectWiFi()] makes [k] rounds, where [k] counts the
    polls that fail before the first one that answers [WL_CONNECTED],
    and is capped by the budget. *)
Lemma await_connection_rounds (budget : nat) :
  forall w : World,
  exists k : nat,
    (k <= budget)%nat /\
    events (await_connection env budget w) =
      (List.concat (repeat waiting_round k) ++ [WiFiStatus])%list /\
    polls (final (await_connection env budget w)) = (polls w + S k)%nat /\
    (forall j, (j < k)%nat -> status_result env (polls w + j)%nat <> WL_CONNECTED env) /\
    ((k < budget)%nat -> status_result env (polls w + k)%nat = WL_CONNECTED env).
Proof.
  induction budget as [|b IH]; intros w.
  - exists 0%nat. cbn [await_connection]. rewrite bind_status.
    destruct (status_result env (polls w) =? WL_CONNECTED env);
      cbn [negb]; unfold ret, prepend; cbn [value final events repeat List.concat app];
      rewrite elapse_polls, polls_set_polls;
      (split; [lia|]); (split; [reflexivity|]); (split; [lia|]); split; intros; lia.
  - cbn [await_connection]. rewrite bind_status.
    destruct (status_result env (polls w) =? WL_CONNECTED env) eqn:E; cbn [negb].
    + exists 0%nat. unfold ret, prepend. cbn [value final events repeat List.concat app].
      rewrite elapse_polls, polls_set_polls, Nat.add_0_r.
      split; [lia|]. split; [reflexivity|]. split; [lia|].
      split; [intros; lia|]. intros _. now apply Z.eqb_eq.
    + unfold Serial_print. rewrite bind_delay, bind_call. cbn beta.
      rewrite !prepend_prepend.
      match goal with
      | |- context [await_connection env b ?W] => set (w1 := W)
      end.
      assert (Hp : polls w1 = S (polls w)) by reflexivity.
      clearbody w1.
      destruct (IH w1) as (k & Hk & He & Hq & Hfail & Hup).
      exists (S k). unfold prepend. cbn [value final events].
      rewrite He, Hq, Hp. cbn [repeat List.concat]. unfold waiting_round at 2.
      cbn [app].
      split; [lia|]. split; [reflexivity|]. split; [lia|]. split.
      * intros [|j] Hj.
        -- rewrite Nat.add_0_r. now apply Z.eqb_neq.
        -- replace (polls w + S j)%nat with (polls w1 + j)%nat by lia.
           apply Hfail. lia.
      * intros Hlt. replace (polls w + S k)%nat with (polls w1 + k)%nat by lia.
        apply Hup. lia.
Qed.

(** [connectWiFi()] in full: one [WiFi.begin], [k] rounds of waiting, the
    poll that ends the wait, and one more poll that alone decides what is
    reported. *)
Lemma connectWiFi_rounds (w : World) :
  exists k : nat,
    (k <= 30)%nat /\
    events (connectWiFi env w) =
      ([ SerialPrint "Connecting to WiFi"; WiFiBegin ssid password ] ++
       List.concat (repeat waiting_round k) ++
       [ WiFiStatus; WiFiStatus ] ++
       verdict_lines env (status_result env (polls w + S k)%nat =? WL_CONNECTED env))%list /\
    polls (final (connectWiFi env w)) = (polls w + k + 2)%nat /\
    (forall j, (j < k)%nat -> status_result env (polls w + j)%nat <> WL_CONNECTED env) /\
    ((k < 30)%nat -> status_result env (polls w + k)%nat = WL_CONNECTED env).
Proof.
  unfold connectWiFi, Serial_print, Serial_println, WiFi_begin, WiFi_localIP.
  rewrite !bind_call. cbn beta. rewrite prepend_prepend.
  match goal with
  | |- context [bind (await_connection env 30) ?k ?W] =>
      destruct (await_connection_rounds 30 W) as (n & Hn & He & Hq & Hfail & Hup);
      destruct (await_connection_returns env 30 W) as [[] Hv];
      rewrite (bind_Returned _ k W tt Hv)
  end.
  rewrite !elapse_polls in Hq, Hfail, Hup.
  exists n. cbn beta. rewrite bind_status, Hq, He.
  destruct (status_result env (polls w + S n) =? WL_CONNECTED env);
    repeat step; rewrite run_call; unfold prepend; cbn [value final events];
    rewrite ?elapse_polls, ?polls_set_polls;
    (split; [exact Hn|]);
    (split; [unfold verdict_lines; rewrite <- !app_assoc; reflexivity|]);
    (split; [lia|]); (split; [exact Hfail | exact Hup]).
Qed.

(** X3.  Whatever the network answers, [connectWiFi()] returns, having
    called [WiFi.begin] once, waited at most 30 times 500 ms, polled the
    status once per wait and twice more, and posted nothing. *)
Theorem connectWiFi_bounded (w : World) :
  let r := connectWiFi env w in
  value r = Returned tt /\
  count is_wifi_begin (events r) = 1%nat /\
  (count (is_delay 500) (events r) <= 30)%nat /\
  count is_status (events r) = (count (is_delay 500) (events r) + 2)%nat /\
  count is_post (events r) = 0%nat /\
  polls (final r) = (polls w + count is_status (events r))%nat.
Proof.
  cbv zeta. destruct (connectWiFi_rounds w) as (k & Hk & He & Hq & _).
  destruct (connectWiFi_returns env w) as [[] Hv].
  rewrite He, Hq, !count_app, !count_rounds.
  destruct (status_result env (polls w + S k) =? WL_CONNECTED env);
    cbn; repeat split; try assumption; lia.
Qed.

(** X4.  If the first poll of [connectWiFi()] to answer [WL_CONNECTED] is
    poll number [k] (from 0, at most 30), the wait lasts exactly [k] rounds
    of 500 ms.  What is then reported -- the IP address or a failure -- is
    decided by one further poll alone: a link that drops between the two
    polls is reported as failed although the wait ended on a connection. *)
Theorem connectWiFi_connects_at (w : World) (k : nat) :
  (k <= 30)%nat ->
  (forall j, (j < k)%nat -> status_result env (polls w + j)%nat <> WL_CONNECTED env) ->
  status_result env (polls w + k)%nat = WL_CONNECTED env ->
  events (connectWiFi env w) =
    ([ SerialPrint "Connecting to WiFi"; WiFiBegin ssid password ] ++
     List.concat (repeat waiting_round k) ++
     [ WiFiStatus; WiFiStatus ] ++
     verdict_lines env (status_result env (polls w + S k)%nat =? WL_CONNECTED env))%list /\
  count (is_delay 500) (events (connectWiFi env w)) = k.
Proof.
  intros Hk Hfail Hup.
  destruct (connectWiFi_rounds w) as (k' & Hk' & He & _ & Hfail' & Hup').
  assert (k' = k) as ->.
  { destruct (Nat.lt_trichotomy k' k) as [Hlt | [Heq | Hgt]]; [|exact Heq|].
    - exfalso. apply (Hfail k' Hlt). apply Hup'. lia.
    - exfalso. apply (Hfail' k Hgt). exact Hup. }
  split; [exact He|].
  rewrite He, !count_app, count_rounds.
  destruct (status_result env (polls w + S k) =? WL_CONNECTED env); cbn; lia.
Qed.

(** *** The machine from power-on *)

Lemma count_delays (p : Event -> bool) (ms : Z) (n : nat) :
  p (Delay ms) = false -> count p (repeat (Delay ms) n) = 0%nat.
Proof.
  intros Hp. induction n as [|n IH]; [reflexivity|].
  unfold count in *. cbn [repeat filter]. now rewrite Hp.
Qed.

(** A [setup()] that halts leaves the machine stuck for good. *)
Lemma halted_boot (w : World) (n : nat) :
  value (setup env w) = Halted ->
  phase (run env (S n) (mkMachine Booting w [])) = Stuck /\
  history (run env (S n) (mkMachine Booting w [])) =
    (events (setup env w) ++ repeat (Delay 1000) n)%list.
Proof.
  intros Hv. cbn [run].
  assert (Hboot : step env (mkMachine Booting w []) =
                  mkMachine Stuck (final (setup env w)) (events (setup env w))).
  { unfold step, enter. cbn [phase world history]. now rewrite Hv. }
  rewrite Hboot. apply run_stuck.
Qed.

(** A machine in [loop()] stays there. *)
Lemma looping_forever (n : nat) :
  forall (w : World) (h : list Event),
    phase (run env n (mkMachine Looping w h)) = Looping.
Proof.
  induction n as [|n IH]; intros w h; [reflexivity|].
  cbn [run]. rewrite step_looping. apply IH.
Qed.

(** X1.  If the sensor is found but [prepareMeasurement] is refused, the
    machine never gets to [loop()]: from the first step on it is stuck,
    its history is the start-up report up to the refusal followed by
    delays of 1000 ms only, and it never calls WiFi, HTTP or [readAll]. *)
Theorem config_rejected_halts (w : World) (n : nat) :
  begin_result env = true ->
  prepare_result env = false ->
  let m := run env (S n) (mkMachine Booting w []) in
  phase m = Stuck /\
  history m =
    (sensor_found_lines ++ prepare_lines env ++
     [ SerialPrintln "ERROR: Failed to start continuous measurement mode" ] ++
     repeat (Delay 1000) n)%list /\
  count is_network (history m) = 0%nat /\
  count is_read (history m) = 0%nat.
Proof.
  intros Hbegin Hprepare. cbv zeta.
  destruct (setup_config_rejected w Hbegin Hprepare) as [Hv He].
  destruct (halted_boot w n Hv) as [Hp Hh]. rewrite He in Hh.
  rewrite Hp, Hh, <- !app_assoc.
  split; [reflexivity|]. split; [reflexivity|].
  rewrite !count_app, !count_delays by reflexivity. split; reflexivity.
Qed.

(** X2.  If the sensor is found and accepts the configuration, [setup()]
    returns whatever the network does -- a WiFi that never connects is no
    reason to halt -- and the machine is in [loop()] after the first step
    and for ever after.  [setup()] takes at least the two seconds of its
    delays, calls [WiFi.begin] once, reads no sample and posts nothing. *)
Theorem sensor_ready_reaches_loop (w : World) (n : nat) :
  begin_result env = true ->
  prepare_result env = true ->
  phase (run env (S n) (mkMachine Booting w [])) = Looping /\
  value (setup env w) = Returned tt /\
  clock w + 2000 <= clock (final (setup env w)) /\
  count is_wifi_begin (events (setup env w)) = 1%nat /\
  count is_read (events (setup env w)) = 0%nat /\
  count is_post (events (setup env w)) = 0%nat.
Proof.
  intros Hbegin Hprepare.
  destruct (setup_completes w Hbegin Hprepare) as (w' & Hclock & Hv & He & Hlate).
  split.
  { cbn [run].
    assert (Hboot : step env (mkMachine Booting w []) =
                    mkMachine Looping (final (setup env w)) (events (setup env w))).
    { unfold step, enter. cbn [phase world history]. now rewrite Hv. }
    rewrite Hboot. apply looping_forever. }
  split; [exact Hv|]. split; [lia|].
  split; [|split; [apply setup_no_read | apply setup_no_post]].
  rewrite He, !count_app.
  destruct (connectWiFi_rounds w') as (k & _ & Hc & _).
  rewrite Hc, !count_app, count_rounds.
  destruct (status_result env (polls w' + S k) =? WL_CONNECTED env); cbn; lia.
Qed.

(** *** The schedule over a whole run *)

Lemma cycle_starts_stuck (n : nat) :
  forall (w : World) (h : list Event), cycle_starts env n (mkMachine Stuck w h) = [].
Proof.
  induction n as [|n IH]; intros w h; [reflexivity|].
  cbn [cycle_starts phase]. rewrite step_stuck. apply IH.
Qed.

(** X5.  After power-on no cycle starts before [POST_INTERVAL] has passed:
    [lastPostTime] starts at 0 and [setup()] does not touch it, so the first
    reading is taken one full interval after boot at the earliest. *)
Theorem first_cycle_after_interval (n : nat) :
  Forall (fun t => POST_INTERVAL <= t) (cycle_starts env n boot).
Proof.
  apply Forall_forall. intros t Ht.
  destruct n as [|n]; [destruct Ht|].
  cbn [cycle_starts boot phase] in Ht.
  destruct (setup_steady power_on) as [Hclock Hlast].
  unfold step, enter in Ht. cbn [boot phase world history] in Ht.
  destruct (value (setup env power_on)).
  - match type of Ht with
    | In _ (cycle_starts _ _ ?m) =>
        apply (proj2 (cycle_starts_spaced env n m) eq_refl 0 Hclock Hlast t Ht)
    end.
  - rewrite cycle_starts_stuck in Ht. destruct Ht.
Qed.

Lemma set_clock_again (a b : Z) (w : World) :
  set_clock a (set_clock b w) = set_clock a w.
Proof. reflexivity. Qed.

(** Idle iterations: as long as the interval is not reached, [j]
    iterations of [loop()] are [j] delays of 100 ms and nothing else. *)
Lemma run_idle (j : nat) :
  forall (w : World) (h : list Event),
    (clock w - lastPostTime w) mod ULONG_MODULUS + 100 * Z.of_nat j < POST_INTERVAL + 100 ->
    run env j (mkMachine Looping w h) =
    mkMachine Looping (set_clock (clock w + 100 * Z.of_nat j) w)
              (h ++ repeat (Delay 100) j).
Proof.
  induction j as [|j IH]; intros w h Hidle.
  - cbn [run repeat]. rewrite app_nil_r. f_equal.
    destruct w. unfold set_clock. cbn. f_equal. lia.
  - assert (Hdue : cycle_due w = false).
    { rewrite cycle_due_elapsed. apply Z.leb_gt. lia. }
    cbn [run]. rewrite step_looping, (loop_idle env w Hdue). cbn [final events].
    assert (He : (clock w - lastPostTime w) mod ULONG_MODULUS < POST_INTERVAL) by lia.
    assert (Hpos : 0 <= (clock w - lastPostTime w) mod ULONG_MODULUS < ULONG_MODULUS).
    { apply Z.mod_pos_bound. rewrite ULONG_MODULUS_value. lia. }
    rewrite IH.
    + rewrite set_clock_again.
      change (clock (set_clock (clock w + 100) w)) with (clock w + 100).
      rewrite <- app_assoc. cbn [app repeat].
      f_equal. f_equal. lia.
    + cbn [clock lastPostTime set_clock].
      replace (clock w + 100 - lastPostTime w)
        with ((clock w - lastPostTime w) + 100) by lia.
      rewrite <- Zplus_mod_idemp_l, Z.mod_small; [lia|].
      rewrite ULONG_MODULUS_value in *. unfold POST_INTERVAL in *. lia.
Qed.

(** The iterations between two cycles, in full. *)
Lemma idle_until_next_cycle (w : World) (h : list Event) :
  cycle_due w = true ->
  let done := final (readAndPostData env w) in
  let next := run env 600 (mkMachine Looping w h) in
  (forall k, (1 <= k < 600)%nat ->
     cycle_due (world (run env k (mkMachine Looping w h))) = false) /\
  phase next = Looping /\
  cycle_due (world next) = true /\
  clock (world next) = clock done + POST_INTERVAL /\
  clock (world next) - clock w = POST_INTERVAL + (clock done - clock w) /\
  history next = (h ++ events (readAndPostData env w) ++ repeat (Delay 100) 600)%list.
Proof.
  intros Hdue. cbv zeta.
  set (done := final (readAndPostData env w)).
  set (w1 := set_clock (clock done + 100)
               (set_lastPostTime (clock done mod ULONG_MODULUS) done)).
  assert (Hstep : step env (mkMachine Looping w h) =
                  mkMachine Looping w1 (h ++ events (readAndPostData env w) ++ [Delay 100])).
  { rewrite step_looping, (loop_due env w Hdue). reflexivity. }
  assert (He : (clock w1 - lastPostTime w1) mod ULONG_MODULUS = 100).
  { subst w1. cbn [clock lastPostTime set_clock set_lastPostTime].
    rewrite Zminus_mod_idemp_r.
    replace (clock done + 100 - clock done) with 100 by lia. reflexivity. }
  assert (Hrun : forall k, (k < 600)%nat ->
            run env (S k) (mkMachine Looping w h) =
            mkMachine Looping (set_clock (clock w1 + 100 * Z.of_nat k) w1)
              ((h ++ events (readAndPostData env w) ++ [Delay 100]) ++
               repeat (Delay 100) k)).
  { intros k Hk. cbn [run]. rewrite Hstep. apply run_idle. rewrite He.
    unfold POST_INTERVAL. lia. }
  assert (Hdue_at : forall k, (k < 600)%nat ->
            cycle_due (world (run env (S k) (mkMachine Looping w h))) =
            (POST_INTERVAL <=? 100 + 100 * Z.of_nat k)).
  { intros k Hk. rewrite (Hrun k Hk). cbn [world].
    rewrite cycle_due_elapsed. cbn [clock lastPostTime set_clock].
    replace (clock w1 + 100 * Z.of_nat k - lastPostTime w1)
      with ((clock w1 - lastPostTime w1) + 100 * Z.of_nat k) by lia.
    rewrite <- Zplus_mod_idemp_l, He, Z.mod_small; [reflexivity|].
    rewrite ULONG_MODULUS_value. lia. }
  split; [|split; [|split; [|split; [|split]]]].
  - intros [|k] Hk; [lia|]. rewrite Hdue_at by lia.
    apply Z.leb_gt. unfold POST_INTERVAL. lia.
  - rewrite (Hrun 599%nat) by lia. reflexivity.
  - rewrite (Hdue_at 599%nat) by lia. reflexivity.
  - rewrite (Hrun 599%nat) by lia. cbn [world clock set_clock].
    subst w1. cbn [clock set_clock]. unfold POST_INTERVAL. lia.
  - rewrite (Hrun 599%nat) by lia. cbn [world clock set_clock].
    subst w1. cbn [clock set_clock]. unfold POST_INTERVAL. lia.
  - rewrite (Hrun 599%nat) by lia. cbn [history].
    rewrite <- !app_assoc. reflexivity.
Qed.

(** X6.  The interval is counted from the end of a cycle, not from its
    start.  After an iteration that ran a cycle, the next 599 iterations
    are idle and the one after them runs the next cycle, at the moment
    the clock stands exactly [POST_INTERVAL] after the reading that was
    stored in [lastPostTime]; the period from start to start is the
    interval plus the time the cycle took. *)
Theorem next_cycle_one_interval_after_end (w : World) (h : list Event) :
  cycle_due w = true ->
  let done := final (readAndPostData env w) in
  let next := run env 600 (mkMachine Looping w h) in
  (forall k, (1 <= k < 600)%nat ->
     cycle_due (world (run env k (mkMachine Looping w h))) = false) /\
  phase next = Looping /\
  cycle_due (world next) = true /\
  clock (world next) = clock done + POST_INTERVAL /\
  clock (world next) - clock w = POST_INTERVAL + (clock done - clock w) /\
  history next = (h ++ events (readAndPostData env w) ++ repeat (Delay 100) 600)%list.
Proof. exact (idle_until_next_cycle w h). Qed.

(** *** Calls over a whole run *)

(** Every cycle reads the sensor once, whether the read succeeds or not. *)
Lemma readAndPostData_one_read (w : World) :
  count is_read (events (readAndPostData env w)) = 1%nat.
Proof.
  destruct (Z.eq_dec (fst (readAll_result env (reads w))) (ksfTkErrOk env)) as [Hok|Hfail].
  - destruct (readAndPostData_success env w Hok) as (wE & w' & -> & _).
    rewrite !count_app, count_reading_lines, count_warning by reflexivity.
    rewrite transmit_stage_no_read. reflexivity.
  - destruct (readAndPostData_failure env w Hfail) as (_ & -> & _). reflexivity.
Qed.

(** One step of the machine, by what it adds to the history. *)
Lemma step_history (p : Event -> bool) (m : Machine) :
  count p (history (step env m)) =
  (count p (history m) +
   match phase m with
   | Booting => count p (events (setup env (world m)))
   | Looping => count p (events (loop env (world m)))
   | Stuck => count p [Delay 1000]
   end)%nat.
Proof.
  destruct m as [[| |] w h]; unfold step, enter; cbn [phase world history].
  - destruct (value (setup env w)); cbn [history]; apply count_app.
  - destruct (value (loop env w)); cbn [history]; apply count_app.
  - cbn [delay events history]. apply count_app.
Qed.

Lemma loop_events (w : World) :
  events (loop env w) =
  ((if cycle_due w then events (readAndPostData env w) else []) ++ [Delay 100])%list.
Proof.
  destruct (cycle_due w) eqn:Hdue;
    [rewrite (loop_due env w Hdue) | rewrite (loop_idle env w Hdue)]; reflexivity.
Qed.

(** X7.  Over any run the machine posts at most once per cycle it has
    started, and never outside a cycle: together with the spacing of the
    cycles, at most one post per interval. *)
Theorem posts_bounded_by_cycles (n : nat) (m : Machine) :
  (count is_post (history (run env n m)) <=
   count is_post (history m) + List.length (cycle_starts env n m))%nat.
Proof.
  revert m. induction n as [|n IH]; intros m; [cbn [run]; lia|].
  cbn [run]. specialize (IH (step env m)).
  rewrite (step_history is_post m) in IH.
  destruct m as [[| |] w h]; cbn [cycle_starts phase world history] in *.
  - rewrite setup_no_post in IH. lia.
  - rewrite loop_events, count_app in IH.
    pose proof (readAndPostData_at_most_one_post env w) as Hone.
    destruct (cycle_due w); cbn [List.length] in *;
      change (count is_post [Delay 100]) with 0%nat in IH;
      change (count is_post []) with 0%nat in IH; lia.
  - change (count is_post [Delay 1000]) with 0%nat in IH. lia.
Qed.

(** X8.  Over any run the sensor is read exactly once in every cycle
    started and at no other time -- not during [setup()], not in idle
    iterations, not in the halt loop. *)
Theorem one_read_per_cycle (n : nat) (m : Machine) :
  count is_read (history (run env n m)) =
  (count is_read (history m) + List.length (cycle_starts env n m))%nat.
Proof.
  revert m. induction n as [|n IH]; intros m; [cbn [run cycle_starts List.length]; lia|].
  cbn [run]. specialize (IH (step env m)).
  rewrite (step_history is_read m) in IH.
  destruct m as [[| |] w h]; cbn [cycle_starts phase world history] in *.
  - rewrite setup_no_read in IH. lia.
  - rewrite loop_events, count_app in IH.
    pose proof (readAndPostData_one_read w) as Hone.
    destruct (cycle_due w); cbn [List.length] in *;
      change (count is_read [Delay 100]) with 0%nat in IH;
      change (count is_read []) with 0%nat in IH; lia.
  - change (count is_read [Delay 1000]) with 0%nat in IH. lia.
Qed.

(** X10.  Once past [setup()] the machine never spins: every step,
    whether it runs a cycle, idles or sits in the halt loop, lets at
    least 100 ms pass, so [n] steps take at least [100 * n] ms. *)
Theorem no_busy_loop (n : nat) (m : Machine) :
  phase m <> Booting ->
  clock (world m) + 100 * Z.of_nat n <= clock (world (run env n m)) /\
  phase (run env n m) = phase m.
Proof.
  revert m. induction n as [|n IH]; intros m Hphase; [cbn [run]; split; [lia|reflexivity]|].
  cbn [run]. destruct m as [[| |] w h]; [contradiction| |]; cbn [phase world] in *.
  - rewrite step_looping.
    destruct (IH (mkMachine Looping (final (loop env w)) (h ++ events (loop env w))))
      as [Hc Hp]; [discriminate|].
    cbn [phase world] in Hc, Hp. split; [|exact Hp].
    assert (clock w + 100 <= clock (final (loop env w))).
    { destruct (cycle_due w) eqn:Hdue.
      - rewrite (loop_due env w Hdue). cbn [final clock set_clock].
        pose proof (proj1 (readAndPostData_steady env w)). lia.
      - rewrite (loop_idle env w Hdue). cbn [final clock set_clock]. lia. }
    lia.
  - rewrite step_stuck.
    destruct (IH (mkMachine Stuck (set_clock (clock w + 1000) w) (h ++ [Delay 1000])))
      as [Hc Hp]; [discriminate|].
    cbn [phase world clock set_clock] in Hc, Hp. split; [lia | exact Hp].
Qed.

(** *** How long a cycle blocks *)

Lemma paced_ret {A : Type} (a : A) : paced (ret a).
Proof. intros w. cbn. lia. Qed.

Lemma paced_bind {A B : Type} (m : M A) (k : A -> M B) :
  paced m -> (forall a, paced (k a)) -> paced (bind m k).
Proof.
  intros Hm Hk w. specialize (Hm w). unfold bind.
  destruct (value (m w)) as [a|]; cbn [final events prepend]; [|exact Hm].
  specialize (Hk a (final (m w))). rewrite count_app. lia.
Qed.

Lemma paced_call (e : Event) : is_delay 500 e = false -> paced (call env e).
Proof.
  intros H w. unfold count. cbn [call events final filter]. rewrite H.
  unfold elapse. cbn [List.length clock set_ops set_clock]. lia.
Qed.

Lemma paced_delay (ms : Z) : 0 <= ms -> paced (delay ms).
Proof.
  intros H w. unfold count. cbn [delay events final filter is_delay clock set_clock].
  destruct (ms =? 500) eqn:E; cbn [List.length].
  - apply Z.eqb_eq in E. lia.
  - lia.
Qed.

Lemma paced_primitive {A : Type} (m : M A) :
  steady m ->
  (forall w, count (is_delay 500) (events (m w)) = 0%nat) ->
  paced m.
Proof. intros Hsteady Hnone w. rewrite Hnone. destruct (Hsteady w). lia. Qed.

Lemma paced_status : paced (WiFi_status env).
Proof.
  apply paced_primitive; [unfold WiFi_status; primitive | intros w; reflexivity].
Qed.

Lemma paced_readAll : paced (uvSensor_readAll env).
Proof.
  apply paced_primitive; [unfold uvSensor_readAll; primitive | intros w; reflexivity].
Qed.

Lemma paced_POST (body : string) : paced (http_POST env body).
Proof.
  apply paced_primitive; [unfold http_POST; primitive | intros w; reflexivity].
Qed.

Lemma paced_getString : paced (http_getString env).
Proof.
  apply paced_primitive; [unfold http_getString; primitive | intros w; reflexivity].
Qed.

Lemma paced_getter (f : Readings -> float) :
  paced (fun w => mkResult (Returned (f (regs w))) w []).
Proof. apply paced_primitive; [primitive | intros w; reflexivity]. Qed.

(** The calls that are a plain [call], by their sketch names. *)
Ltac unfold_plain_calls :=
  unfold Serial_begin, Serial_print, Serial_println, Wire_begin,
    WiFi_begin, WiFi_localIP, http_begin, http_addHeader,
    http_errorToString, http_end,
    uvSensor_getUVA, uvSensor_getUVB, uvSensor_getUVC, uvSensor_getTemp.

Ltac pacing :=
  repeat match goal with
    | |- paced (ret _) => apply paced_ret
    | |- paced (bind _ _) => apply paced_bind; [|intros ?]
    | |- paced (call _ _) => apply paced_call; reflexivity
    | |- paced (delay _) => apply paced_delay; lia
    | |- paced (WiFi_status _) => apply paced_status
    | |- paced (uvSensor_readAll _) => apply paced_readAll
    | |- paced (http_POST _ _) => apply paced_POST
    | |- paced (http_getString _) => apply paced_getString
    | |- paced (fun w => mkResult (Returned (?f (regs w))) w []) => apply (paced_getter f)
    | |- paced (if ?b then _ else _) => destruct b
    | |- paced (match ?n with O => _ | S _ => _ end) => destruct n
    end.

Lemma await_connection_paced (budget : nat) : paced (await_connection env budget).
Proof.
  induction budget as [|b IH]; cbn [await_connection]; unfold_plain_calls; pacing;
    try assumption.
Qed.

Lemma connectWiFi_paced : paced (connectWiFi env).
Proof.
  unfold connectWiFi. unfold_plain_calls. pacing. apply await_connection_paced.
Qed.

Lemma sendDataToServer_paced (json : string) : paced (sendDataToServer env json).
Proof. unfold sendDataToServer. unfold_plain_calls. pacing. Qed.

Lemma createJsonPayload_paced (a b c t : float) : paced (createJsonPayload a b c t).
Proof. intros w. rewrite createJsonPayload_encode. cbn. lia. Qed.

Lemma readAndPostData_paced : paced (readAndPostData env).
Proof.
  unfold readAndPostData, zero_warning. unfold_plain_calls.
  repeat match goal with
    | |- paced (createJsonPayload _ _ _ _) => apply createJsonPayload_paced
    | |- paced (sendDataToServer _ _) => apply sendDataToServer_paced
    | |- paced (connectWiFi _) => apply connectWiFi_paced
    | _ => progress pacing
    end.
Qed.

Lemma run_S (n : nat) (m : Machine) : run env (S n) m = run env n (step env m).
Proof. reflexivity. Qed.

Lemma cycle_starts_S (n : nat) (m : Machine) :
  cycle_starts env (S n) m =
  match phase m with
  | Looping =>
      if cycle_due (world m)
      then clock (world m) :: cycle_starts env n (step env m)
      else cycle_starts env n (step env m)
  | _ => cycle_starts env n (step env m)
  end.
Proof. reflexivity. Qed.

Lemma cycle_starts_app (a b : nat) :
  forall m : Machine,
    cycle_starts env (a + b) m =
    (cycle_starts env a m ++ cycle_starts env b (run env a m))%list.
Proof.
  induction a as [|a IHa]; intros m; [reflexivity|].
  change (S a + b)%nat with (S (a + b)). rewrite !cycle_starts_S, run_S.
  destruct (phase m); try destruct (cycle_due (world m)); rewrite IHa; reflexivity.
Qed.

Lemma cycle_starts_idle (j : nat) :
  forall m : Machine,
    (forall i, (i < j)%nat ->
       phase (run env i m) = Looping /\ cycle_due (world (run env i m)) = false) ->
    cycle_starts env j m = [].
Proof.
  induction j as [|j IHj]; intros m Hm; [reflexivity|].
  rewrite cycle_starts_S. destruct (Hm 0%nat) as [Hp Hd]; [lia|].
  cbn [run] in Hp, Hd. rewrite Hp, Hd. apply IHj.
  intros i Hi. rewrite <- run_S. apply Hm. lia.
Qed.

(** X11.  A cycle that reads a sample and then finds the network down at
    every poll blocks [loop()] for at least the 30 half-second waits of
    the reconnection, 15 s in all; as the interval is counted from the end
    of the cycle, the next cycle starts at least 75 s after this one. *)
Theorem unreachable_network_blocks_cycle (w : World) (h : list Event) :
  cycle_due w = true ->
  fst (readAll_result env (reads w)) = ksfTkErrOk env ->
  (forall k, (k <= 32)%nat ->
             status_result env (polls w + k)%nat <> WL_CONNECTED env) ->
  clock w + 15000 <= clock (final (readAndPostData env w)) /\
  clock w + 15000 + POST_INTERVAL <= clock (world (run env 600 (mkMachine Looping w h))) /\
  cycle_starts env 601 (mkMachine Looping w h) =
    [ clock w; clock (final (readAndPostData env w)) + POST_INTERVAL ].
Proof.
  intros Hdue Hok Hdown.
  assert (Hcount : count (is_delay 500) (events (readAndPostData env w)) = 30%nat).
  { assert (E : (status_result env (polls w) =? WL_CONNECTED env) = false).
    { apply Z.eqb_neq. rewrite <- (Nat.add_0_r (polls w)). apply Hdown. lia. }
    destruct (readAndPostData_success env w Hok) as (wE & w' & Hev & _ & Hpolls & _).
    cbv zeta in Hev. rewrite E in Hev.
    unfold transmit_stage, Serial_println in Hev.
    rewrite bind_call in Hev. unfold prepend in Hev. cbn [events] in Hev.
    rewrite connectWiFi_all_fail in Hev.
    2:{ intros k Hk. rewrite elapse_polls, Hpolls.
        replace (S (polls w) + k)%nat with (polls w + S k)%nat by lia.
        apply Hdown. lia. }
    rewrite Hev, !count_app, count_reading_lines, count_warning by reflexivity.
    reflexivity. }
  pose proof (readAndPostData_paced w) as Hpaced. rewrite Hcount in Hpaced.
  destruct (idle_until_next_cycle w h Hdue)
    as (Hidle & _ & Hnext & Hclock & _).
  cbv zeta in Hclock, Hnext.
  split; [lia|]. split; [lia|].
  change 601%nat with (S (599 + 1)).
  rewrite cycle_starts_S. cbn [phase world]. rewrite Hdue. f_equal.
  rewrite (cycle_starts_app 599 1), cycle_starts_idle.
  - cbn [app]. rewrite (cycle_starts_S 0), <- (run_S 599).
    destruct (idle_until_next_cycle w h Hdue) as (_ & Hp & Hd & Hc & _).
    cbv zeta in Hp, Hd, Hc. rewrite Hp, Hd, Hc. reflexivity.
  - intros i Hi. rewrite <- run_S.
    split; [apply looping_forever | apply Hidle; lia].
Qed.

End More.

(** *** The timestamp, read back *)

Lemma decode_String_ulong (n : Z) : 0 <= n -> decode_ulong (String_ulong n) = Some n.
Proof.
  intros Hn. unfold decode_ulong, String_ulong.
  destruct (NilZero.usu_gen (N.to_uint (Z.to_N n))) as [-> | Hzero].
  - cbn [option_map]. now rewrite DecimalN.Unsigned.of_to, Z2N.id.
  - rewrite Hzero. cbn [option_map].
    destruct (N.to_uint (Z.to_N n)) eqn:E;
      try (rewrite NilZero.usu in Hzero by discriminate; injection Hzero as <-);
      rewrite <- (Z2N.id n Hn), <- (DecimalN.Unsigned.of_to (Z.to_N n)), E; reflexivity.
Qed.

(** X9.  The timestamp member of a record, read back as a decimal number,
    is the [millis()] reading at encoding time: the clock modulo 2^32, so
    a number below 2^32 that starts again from 0 after about 49.7 days. *)
Theorem record_timestamp_decodes (uva uvb uvc temp : float) (w : World) :
  exists json v,
    value (createJsonPayload uva uvb uvc temp w) = Returned json /\
    lookup (quoted "timestamp") (json_object json) = Some v /\
    decode_ulong v = Some (clock w mod ULONG_MODULUS) /\
    0 <= clock w mod ULONG_MODULUS < 2 ^ 32.
Proof.
  rewrite createJsonPayload_encode. cbn [value].
  eexists. eexists. split; [reflexivity|].
  rewrite json_object_encode. split; [reflexivity|].
  assert (H : 0 <= clock w mod ULONG_MODULUS < 2 ^ 32).
  { apply Z.mod_pos_bound. reflexivity. }
  split; [apply decode_String_ulong; lia | exact H].
Qed.

(* ================================================================== *)
(** ** The further properties at work *)

Lemma config_rejected_halts_witness :
  begin_result stubborn_sensor = true /\
  prepare_result stubborn_sensor = false /\
  phase (run stubborn_sensor 4 boot) = Stuck /\
  count is_network (history (run stubborn_sensor 4 boot)) = 0%nat.
Proof.
  split; [reflexivity|]. split; [reflexivity|].
  destruct (config_rejected_halts stubborn_sensor power_on 3 eq_refl eq_refl)
    as (Hp & _ & Hn & _).
  split; [exact Hp | exact Hn].
Defined.

(** No access point in reach, and still the machine gets to [loop()]. *)
Lemma sensor_ready_reaches_loop_witness :
  begin_result no_wifi = true /\
  prepare_result no_wifi = true /\
  phase (run no_wifi 10 boot) = Looping.
Proof.
  split; [reflexivity|]. split; [reflexivity|].
  exact (proj1 (sensor_ready_reaches_loop no_wifi power_on 9 eq_refl eq_refl)).
Defined.

(** The access point answers at the fourth poll: three rounds. *)
Lemma connectWiFi_connects_at_witness :
  (forall j, (j < 3)%nat ->
     status_result slow_wifi (polls power_on + j)%nat <> WL_CONNECTED slow_wifi) /\
  status_result slow_wifi (polls power_on + 3)%nat = WL_CONNECTED slow_wifi /\
  count (is_delay 500) (events (connectWiFi slow_wifi power_on)) = 3%nat.
Proof.
  assert (H : forall j, (j < 3)%nat ->
            status_result slow_wifi (polls power_on + j)%nat <> WL_CONNECTED slow_wifi).
  { intros j Hj. do 3 (destruct j as [|j]; [discriminate|]). lia. }
  split; [exact H|]. split; [reflexivity|].
  refine (proj2 (connectWiFi_connects_at slow_wifi power_on 3 _ H eq_refl)). lia.
Defined.

Lemma next_cycle_one_interval_after_end_witness :
  cycle_due midday = true /\
  clock (world (run bench 600 (mkMachine Looping midday []))) =
    clock (final (readAndPostData bench midday)) + POST_INTERVAL.
Proof.
  split; [reflexivity|].
  destruct (next_cycle_one_interval_after_end bench midday [] eq_refl)
    as (_ & _ & _ & Hclock & _).
  exact Hclock.
Defined.

Lemma no_busy_loop_witness :
  phase (mkMachine Looping midday []) <> Booting /\
  clock midday + 100 * 50 <= clock (world (run bench 50 (mkMachine Looping midday []))).
Proof.
  assert (H : phase (mkMachine Looping midday []) <> Booting) by discriminate.
  split; [exact H|].
  exact (proj1 (no_busy_loop bench 50 (mkMachine Looping midday []) H)).
Defined.

Lemma unreachable_network_blocks_cycle_witness :
  cycle_due midday = true /\
  (forall k, (k <= 32)%nat ->
     status_result no_wifi (polls midday + k)%nat <> WL_CONNECTED no_wifi) /\
  clock midday + 15000 <= clock (final (readAndPostData no_wifi midday)).
Proof.
  assert (H : forall k, (k <= 32)%nat ->
            status_result no_wifi (polls midday + k)%nat <> WL_CONNECTED no_wifi)
    by (intros k _; discriminate).
  split; [reflexivity|]. split; [exact H|].
  exact (proj1 (unreachable_network_blocks_cycle no_wifi midday [] eq_refl eq_refl H)).
Defined.

(** The model, run further. *)
(** The link is up at the first poll and down at the one that decides:
    no round of waiting, and a failure is reported. *)
Example flapping_wifi_reported_as_failed :
  events (connectWiFi flapping_wifi power_on) =
  [ SerialPrint "Connecting to WiFi"; WiFiBegin ssid password;
    WiFiStatus; WiFiStatus;
    SerialPrintln (nl ++ "WiFi connection failed!") ].
Proof. vm_compute. reflexivity. Qed.

Example timestamp_wraps :
  value (createJsonPayload f_zero f_zero f_zero f_zero
           (mkWorld (2 ^ 32 + 5) 0 no_readings 0 0 0 0)) =
  value (createJsonPayload f_zero f_zero f_zero f_zero
           (mkWorld 5 0 no_readings 0 0 0 0)).
Proof. reflexivity. Qed.
